(** * Tide prediction service of the Hon Dau station: model and properties

    A shallow embedding of [main.py].  Floating point numbers are read as
    real numbers, instants as integer microsecond counts, and the Python
    exceptions the handlers can meet as an error result. *)

From Stdlib Require Import ZArith List Bool Lia Reals Lra Zfloor String Sorted.
Import ListNotations.

Local Open Scope Z_scope.

(** ** Python results *)

Inductive py_exn : Set := TypeError | ValueError | IndexError.

Inductive py (A : Type) : Type :=
| Ok (a : A)
| Raise (e : py_exn).

Arguments Ok {A} a.
Arguments Raise {A} e.

Definition bind {A B : Type} (m : py A) (k : A -> py B) : py B :=
  match m with
  | Ok a => k a
  | Raise e => Raise e
  end.

Notation "x <- m ;; k" := (bind m (fun x => k))
  (at level 61, m at next level, right associativity).

(** ** The [datetime] module, as far as [main.py] uses it *)

Module Time.

(** A [timedelta] is a signed count of microseconds. *)
Definition timedelta : Set := Z.

Definition us_per_second : Z := 1000000.

Definition hours (h : Z) : timedelta := h * 3600 * us_per_second.
Definition minutes (m : Z) : timedelta := m * 60 * us_per_second.

(** [timedelta.total_seconds()]. *)
Definition total_seconds (d : timedelta) : R := (IZR d / IZR us_per_second)%R.

(** [timezone(offset)]: a fixed offset from UTC. *)
Definition timezone : Set := timedelta.
Definition utc : timezone := 0.

(** An aware datetime: the wall clock reading, in microseconds since
    0001-01-01 00:00 of its own zone, and the zone's offset. *)
Record aware : Set := { wall : Z; utcoffset : timezone }.

(** A datetime is aware or naive (no [tzinfo]). *)
Inductive datetime : Set :=
| Naive (w : Z)
| Aware (a : aware).

Definition is_leap (y : Z) : bool :=
  (y mod 4 =? 0) && (negb (y mod 100 =? 0) || (y mod 400 =? 0)).

Definition days_before_year (year : Z) : Z :=
  let y := year - 1 in y * 365 + y / 4 - y / 100 + y / 400.

Definition DAYS_IN_MONTH : list Z := [31; 28; 31; 30; 31; 30; 31; 31; 30; 31; 30; 31].

Definition days_before_month (year month : Z) : Z :=
  fold_right Z.add 0 (firstn (Z.to_nat (month - 1)) DAYS_IN_MONTH)
  + (if (2 <? month) && is_leap year then 1 else 0).

Definition ymd2ord (year month day : Z) : Z :=
  days_before_year year + days_before_month year month + day.

(** [datetime(y, m, d, hh, mm, ss, tzinfo=tz)]. *)
Definition mk (y m d hh mm ss : Z) (tz : timezone) : aware :=
  {| wall := ((((ymd2ord y m d - 1) * 24 + hh) * 60 + mm) * 60 + ss) * us_per_second;
     utcoffset := tz |}.

(** The instant an aware datetime denotes, on the UTC scale. *)
Definition instant (a : aware) : Z := wall a - utcoffset a.

(** [a.astimezone(tz)]: the same instant, read on the clock of [tz]. *)
Definition astimezone (tz : timezone) (a : aware) : aware :=
  {| wall := instant a + tz; utcoffset := tz |}.

(** [a + d] and [a - d] keep the zone. *)
Definition add (a : aware) (d : timedelta) : aware :=
  {| wall := wall a + d; utcoffset := utcoffset a |}.

(** [a - b] on datetimes: aware values are compared as instants, naive ones
    as wall clocks, and mixing the two raises [TypeError]. *)
Definition sub (a b : datetime) : py timedelta :=
  match a, b with
  | Aware x, Aware y => Ok (instant x - instant y)
  | Naive x, Naive y => Ok (x - y)
  | _, _ => Raise TypeError
  end.

(** [a < b] on aware datetimes compares the instants. *)
Definition before (a b : aware) : Prop := instant a < instant b.

(** The day a wall clock reading falls on, as a proleptic ordinal. *)
Definition date_of (a : aware) : Z := wall a / (86400 * us_per_second) + 1.

End Time.

(** ** Rounding to two decimals *)

(** [numpy.rint]: the nearest integer, halves to the even neighbour. *)
Definition rint (x : R) : Z :=
  let f := Zfloor x in
  let d := (x - IZR f)%R in
  if Rlt_dec d (1 / 2) then f
  else if Rlt_dec (1 / 2) d then f + 1
  else if Z.even f then f else f + 1.

(** The level in hundredths of a centimetre that [round(x, 2)] denotes. *)
Definition round2_centi (x : R) : Z := rint (x * 100).

(** [round(x, 2)] and [x.round(2)]. *)
Definition round2 (x : R) : R := (IZR (round2_centi x) / 100)%R.

(** ** Module level configuration *)

(** [VN_TIMEZONE = timezone(timedelta(hours=0))]. *)
Definition VN_TIMEZONE : Time.timezone := Time.hours 0.

Definition CONS_NAMES : list string :=
  ["M2"; "S2"; "K1"; "O1"; "M4"; "MS4"; "M6"; "N2"; "K2"; "P1"; "Q1"; "Sa"; "Ssa"]%string.

Definition CONS_H : list R :=
  [5.73; 5.29; 89.0; 109.06; 1.36; 1.2; 0.22; 0.6; 2.9; 25.67; 20.14; 8.03; 2.35]%R.

Definition CONS_G : list R :=
  [47.24; 105.85; 79.71; 41.55; 210.36; 286.71; 180.83; 51.48; 60.38; 84.07;
   365.01; 196.26; 97.56]%R.

Definition A0 : R := 214%R.

Definition INITIAL_TIME : Time.aware := Time.mk 2000 1 1 0 0 0 Time.utc.

(** [numpy.radians]. *)
Definition radians (deg : R) : R := (deg * PI / 180)%R.

(** ** Harmonic synthesis *)

Module Uptide.

(** What [uptide.Tides(names)] holds once [set_initial_time] has run; the
    speed of a constituent comes from the library's table [speed]. *)
Record Tides : Type := { constituents : list string; omega : list R }.

Definition make (speed : string -> R) (names : list string) : Tides :=
  {| constituents := names; omega := map speed names |}.

(** Modelled from the spec: [uptide.Tides.from_amplitude_phase] is a routine
    of the third-party package uptide, absent from the sources; the
    specification gives it as the superposition of one cosine per
    constituent, amplitude times the cosine of speed times elapsed seconds
    minus phase. *)
Definition from_amplitude_phase (tm : Tides) (amps phs : list R) (t : R) : R :=
  fold_right Rplus 0%R
    (map (fun '(w, a, p) => (a * cos (w * t - p))%R)
         (combine (combine (omega tm) amps) phs)).

End Uptide.

Section Synthesis.

(** The library's table of angular speeds, in radians per second. *)
Variable speed : string -> R.

(** A configuration: constituent names, amplitudes, phases in degrees and
    the mean level. *)
Variables (names : list string) (cons_h cons_g : list R) (a0 : R).

Definition tide_model_of : Uptide.Tides := Uptide.make speed names.
Definition amplitudes_of : list R := cons_h.
Definition phases_of : list R := map radians cons_g.

(** The oscillating part at [t] seconds after [INITIAL_TIME]. *)
Definition eta_of (t : R) : R :=
  Uptide.from_amplitude_phase tide_model_of amplitudes_of phases_of t.

(** The body of [calculate_tide_uptide], for the configuration at hand. *)
Definition calculate_tide (target_datetime_utc : Time.datetime) : py R :=
  d <- Time.sub target_datetime_utc (Time.Aware INITIAL_TIME) ;;
  let time_since_initial := Time.total_seconds d in
  let eta := eta_of time_since_initial in
  Ok (round2 (a0 + eta)).

(** [(A0 + eta_values).round(2)] over an array of instants.  A rounded level
    is kept as its number of hundredths, which orders and subtracts as the
    floating point number does; [levels_of] gives the levels themselves. *)
Definition levels_centi (time_range : list Time.aware) : list Z :=
  map (fun t =>
         round2_centi (a0 + eta_of (Time.total_seconds
                                      (Time.instant t - Time.instant INITIAL_TIME))))
      time_range.

Definition levels_of (time_range : list Time.aware) : list R :=
  map (fun c => (IZR c / 100)%R) (levels_centi time_range).

End Synthesis.

(** The module's own model, amplitudes and phases. *)
Definition tide_model (speed : string -> R) : Uptide.Tides :=
  tide_model_of speed CONS_NAMES.
Definition amplitudes : list R := amplitudes_of CONS_H.
Definition phases : list R := phases_of CONS_G.

(** [calculate_tide_uptide] with the module's constants.  For a single time
    the library hands back a scalar, or an array of one element that the
    function unwraps; both are the one number [eta]. *)
Definition calculate_tide_uptide (speed : string -> R) : Time.datetime -> py R :=
  calculate_tide speed CONS_NAMES CONS_H CONS_G A0.

(** ** The extrema detector *)

Module Peaks.

(** The next sample that differs from [v] exists and lies below [v]. *)
Fixpoint falls_after (v : Z) (tl : list Z) : bool :=
  match tl with
  | [] => false
  | y :: tl' => if y =? v then falls_after v tl' else y <? v
  end.

(** Scan of [rest], whose head has index [i] and left neighbour [prev]. *)
Fixpoint scan (i : nat) (prev : Z) (rest : list Z) : list nat :=
  match rest with
  | [] => []
  | cur :: tl =>
      if (prev <? cur) && falls_after cur tl
      then i :: scan (S i) cur tl
      else scan (S i) cur tl
  end.

(** Candidate highs: samples above both neighbours, a flat top counted once,
    at its first index; the first and the last sample are never candidates. *)
Definition local_maxima (x : list Z) : list nat :=
  match x with
  | [] => []
  | x0 :: tl => scan 1 x0 tl
  end.

(** Distance between two indices. *)
Definition dist (a b : nat) : nat := ((a - b) + (b - a))%nat.

(** Insertion into a list kept in order of decreasing level. *)
Fixpoint insert_by (lvl : nat -> Z) (c : nat) (l : list nat) : list nat :=
  match l with
  | [] => [c]
  | h :: t => if lvl h <? lvl c then c :: h :: t else h :: insert_by lvl c t
  end.

Definition by_decreasing_level (lvl : nat -> Z) (cands : list nat) : list nat :=
  fold_right (insert_by lvl) [] cands.

Definition far_from_all (d c : nat) (accepted : list nat) : bool :=
  forallb (fun a => (d <=? dist c a)%nat) accepted.

(** Greedy suppression: a candidate is accepted when it keeps the distance
    [d] to every candidate accepted before it. *)
Fixpoint select (d : nat) (order accepted : list nat) : list nat :=
  match order with
  | [] => accepted
  | c :: rest =>
      if far_from_all d c accepted
      then select d rest (c :: accepted)
      else select d rest accepted
  end.

(** Modelled from the spec: [scipy.signal.find_peaks(x, distance=d)] is a
    routine of the third-party package scipy, absent from the sources; the
    specification gives the detector as candidate detection under the
    two-neighbour rule, then suppression of candidates in order of decreasing
    level, accepting one only when it is at least [d] indices away from every
    candidate accepted so far, the events returned in ascending index order. *)
Definition find_peaks (x : list Z) (d : nat) : list nat :=
  let cands := local_maxima x in
  let lvl := fun i => nth i x 0 in
  let accepted := select d (by_decreasing_level lvl cands) [] in
  filter (fun c => existsb (Nat.eqb c) accepted) cands.

(** The order in which candidates are visited, and the separation the
    detector promises. *)
Definition higher_first (lvl : nat -> Z) (a b : nat) : Prop := lvl b <= lvl a.

Definition separated (d : nat) (l : list nat) : Prop :=
  forall a b, In a l -> In b l -> a <> b -> (d <= dist a b)%nat.

End Peaks.

(** ** numpy arrays, as far as the validator uses them *)

Module Np.

(** Elementwise [a - b] with broadcasting of a one-element operand. *)
Definition sub (a b : list R) : py (list R) :=
  if (List.length a =? List.length b)%nat then Ok (map (fun '(x, y) => (x - y)%R) (combine a b))
  else if (List.length b =? 1)%nat then Ok (map (fun x => (x - hd 0%R b)%R) a)
  else if (List.length a =? 1)%nat then Ok (map (fun y => (hd 0%R a - y)%R) b)
  else Raise ValueError.

Definition sum (l : list R) : R := fold_right Rplus 0%R l.

Definition mean (l : list R) : R := (sum l / INR (List.length l))%R.

(** [numpy.max], which raises on an empty array. *)
Definition max (l : list R) : py R :=
  match l with
  | [] => Raise ValueError
  | x :: tl => Ok (fold_right Rmax x tl)
  end.

(** [a[i]] for a list or an array and an index that is not negative. *)
Definition index {A : Type} (a : list A) (i : nat) : py A :=
  match nth_error a i with
  | Some v => Ok v
  | None => Raise IndexError
  end.

End Np.

(** [for x in xs: ...] with a body that may raise. *)
Fixpoint for_each {A B : Type} (f : A -> py B) (xs : list A) : py (list B) :=
  match xs with
  | [] => Ok []
  | x :: tl => y <- f x ;; ys <- for_each f tl ;; Ok (y :: ys)
  end.

(** ** The validator *)

Definition actual_data : list Z :=
  [302; 343; 374; 392; 395; 385; 360; 325; 284; 238;
   190; 142; 97; 60; 30; 9; -4; 0; 4; 25;
   57; 100; 150; 202].

Record statistics : Type := {
  mean_error_cm : R;
  mae_cm : R;
  rmse_cm : R;
  max_error_cm : R
}.

Record comparison_row : Type := {
  hour : string;
  actual_cm : Z;
  predicted_cm : R;
  error_cm : R
}.

Record validation : Type := {
  validation_statistics : statistics;
  comparison : list comparison_row
}.

Definition digit (n : nat) : Ascii.ascii := Ascii.ascii_of_nat (48 + n).

(** The label [f"{i:02d}:00"] of an hour below one hundred. *)
Definition hour_label (i : nat) : string :=
  String (digit (i / 10)) (String (digit (i mod 10)) ":00").

(** [errors = predicted - np.array(actual)]. *)
Definition errors_of (predicted : list R) (actual : list Z) : py (list R) :=
  Np.sub predicted (map IZR actual).

(** The ["statistics"] entry of the report. *)
Definition statistics_of (errors : list R) : py statistics :=
  mx <- Np.max (map Rabs errors) ;;
  Ok {| mean_error_cm := Np.mean errors;
        mae_cm := Np.mean (map Rabs errors);
        rmse_cm := sqrt (Np.mean (map (fun e => (e * e)%R) errors));
        max_error_cm := mx |}.

(** The body of [validate_model] from the subtraction on, for a table
    [actual] of observations and an array [predicted] of predictions. *)
Definition validate_from (actual : list Z) (predicted : list R) : py validation :=
  errors <- errors_of predicted actual ;;
  rows <- for_each (fun i =>
            a <- Np.index actual i ;;
            p <- Np.index predicted i ;;
            e <- Np.index errors i ;;
            Ok {| hour := hour_label i; actual_cm := a;
                  predicted_cm := p; error_cm := e |})
          (seq 0 24) ;;
  st <- statistics_of errors ;;
  Ok {| validation_statistics := st; comparison := rows |}.

(** The 24 instants [validate_model] predicts for. *)
Definition validation_hours_utc : list Time.aware :=
  let test_date := Time.mk 2026 2 1 0 0 0 VN_TIMEZONE in
  let test_date_utc := Time.astimezone Time.utc test_date in
  map (fun i => Time.add test_date_utc (Time.hours (Z.of_nat i))) (seq 0 24).

Definition validate_model (speed : string -> R) : py validation :=
  let predicted := levels_of speed CONS_NAMES CONS_H CONS_G A0 validation_hours_utc in
  validate_from actual_data predicted.

(** ** The handlers *)

(** [datetime.now(timezone.utc)], for a clock that reads [now]. *)
Definition now_utc_at (now : Z) : Time.aware :=
  {| Time.wall := now; Time.utcoffset := Time.utc |}.

(** [datetime(now.year, now.month, now.day, tzinfo=timezone.utc)]: the wall
    clock of [now_utc] cut back to midnight. *)
Definition start_of_day (now_utc : Time.aware) : Time.aware :=
  let day := 86400 * Time.us_per_second in
  {| Time.wall := Time.wall now_utc / day * day; Time.utcoffset := Time.utc |}.

Record current_response : Type := {
  cur_time_utc : string;
  cur_time_local : string;
  cur_timezone : string;
  cur_level_cm : R
}.

Record tide_event : Type := { ev_time_local : string; ev_level_cm : R }.

Record extremes_response : Type := {
  date_local : Z;
  high_tides : list tide_event;
  low_tides : list tide_event
}.

Record forecast_response : Type := {
  forecast_period : Z;
  forecast : list tide_event
}.

Record chart_series : Type := {
  chart_abs_days : Z;
  chart_is_past : bool;
  chart_days : Z;
  chart_labels : list string;
  chart_values : list R
}.

(** The two calls of the detector in [get_daily_extremes]: highs on the
    levels, lows on the negated levels, both with [distance=60]. *)
Definition daily_peaks (levels : list Z) : list nat * list nat :=
  (Peaks.find_peaks levels 60, Peaks.find_peaks (map Z.opp levels) 60).

(** The part of [get_tide_chart] that picks the cadence and the count. *)
Definition chart_abs_days_of (days : Z) : Z :=
  let abs_days := Z.abs days in
  let abs_days := if abs_days <? 1 then 1 else abs_days in
  if 365 <? abs_days then 365 else abs_days.

Definition chart_interval_minutes (abs_days : Z) : Z :=
  if abs_days <=? 10 then 15 else if abs_days <=? 20 then 30 else 60.

Definition chart_num_points (abs_days : Z) : Z :=
  let points_per_day := 24 * 60 / chart_interval_minutes abs_days in
  abs_days * points_per_day.

(** [range(n)]. *)
Definition range (n : Z) : list Z := map Z.of_nat (seq 0 (Z.to_nat n)).

Definition chart_time_range (days now : Z) : list Time.aware :=
  let abs_days := chart_abs_days_of days in
  let is_past := days <? 0 in
  let now_utc := now_utc_at now in
  let interval_minutes := chart_interval_minutes abs_days in
  let num_points := chart_num_points abs_days in
  if is_past
  then rev (map (fun i => Time.add now_utc (- Time.minutes (interval_minutes * i)))
                (range num_points))
  else map (fun i => Time.add now_utc (Time.minutes (interval_minutes * i)))
           (range num_points).

Section Handlers.

Variable speed : string -> R.

(** The text of a datetime under a [strftime] format, and its [isoformat]. *)
Variable strftime : string -> Time.aware -> string.
Variable isoformat : Time.aware -> string.

(** What [pandas.date_range] makes of a negative [periods], which differs
    between releases of pandas. *)
Variable date_range_negative : py (list Time.aware).

(** [pandas.date_range(start=start, periods=periods, freq=freq)]. *)
Definition date_range (start : Time.aware) (periods : Z) (freq : Time.timedelta)
  : py (list Time.aware) :=
  if periods <? 0 then date_range_negative
  else Ok (map (fun i => Time.add start (i * freq)) (range periods)).

Definition get_current_tide (now : Z) : py current_response :=
  let now_utc := now_utc_at now in
  let now_vn := Time.astimezone VN_TIMEZONE now_utc in
  level <- calculate_tide_uptide speed (Time.Aware now_utc) ;;
  Ok {| cur_time_utc := strftime "%Y-%m-%d %H:%M:%S UTC" now_utc;
        cur_time_local := strftime "%Y-%m-%d %H:%M:%S" now_vn;
        cur_timezone := "GMT+7";
        cur_level_cm := level |}.

(** The entries appended for the indices [peaks]. *)
Definition peak_events (time_range : list Time.aware) (levels : list Z)
  (peaks : list nat) : list tide_event :=
  flat_map (fun idx =>
              if (idx <? List.length time_range)%nat
              then let t := nth idx time_range INITIAL_TIME in
                   [{| ev_time_local :=
                         strftime "%Y-%m-%d %H:%M:%S" (Time.astimezone VN_TIMEZONE t);
                       ev_level_cm := (IZR (nth idx levels 0%Z) / 100)%R |}]
              else [])
           peaks.

Definition get_daily_extremes (now : Z) : py extremes_response :=
  let now_utc := now_utc_at now in
  let start_of_day_utc := start_of_day now_utc in
  time_range <- date_range start_of_day_utc 288 (Time.minutes 5) ;;
  let levels := levels_centi speed CONS_NAMES CONS_H CONS_G A0 time_range in
  let '(high_peaks, low_peaks) := daily_peaks levels in
  Ok {| date_local := Time.date_of (Time.astimezone VN_TIMEZONE start_of_day_utc);
        high_tides := peak_events time_range levels high_peaks;
        low_tides := peak_events time_range levels low_peaks |}.

Definition get_forecast (days : Z) (now : Z) : py forecast_response :=
  let days := if 30 <? days then 30 else days in
  let now_utc := now_utc_at now in
  time_range <- date_range now_utc (days * 24) (Time.hours 1) ;;
  let levels := levels_of speed CONS_NAMES CONS_H CONS_G A0 time_range in
  let forecast :=
    map (fun '(i, t_utc) =>
           let t_local := Time.astimezone VN_TIMEZONE t_utc in
           {| ev_time_local := isoformat t_local;
              ev_level_cm := nth i levels 0%R |})
        (combine (seq 0 (List.length time_range)) time_range) in
  Ok {| forecast_period := days; forecast := forecast |}.

(** What the page of [get_tide_chart] takes from the request: the number of
    days of its title, the direction, the [days] it writes as given into the
    slider and the period box, and the labels and values it draws; the fixed
    text of the page is left out. *)
Definition get_tide_chart (days : Z) (now : Z) : chart_series :=
  let time_range := chart_time_range days now in
  let values := levels_of speed CONS_NAMES CONS_H CONS_G A0 time_range in
  let labels :=
    map (fun t => strftime "%H:%M %d/%m" (Time.astimezone VN_TIMEZONE t)) time_range in
  {| chart_abs_days := chart_abs_days_of days;
     chart_is_past := days <? 0;
     chart_days := days;
     chart_labels := labels;
     chart_values := values |}.

End Handlers.

(** One element of [(A0 + eta_values).round(2)]: the level the module's
    configuration gives for the instant of [t]. *)
Definition level_at (speed : string -> R) (t : Time.aware) : R :=
  round2 (A0 + eta_of speed CONS_NAMES CONS_H CONS_G
                  (Time.total_seconds (Time.instant t - Time.instant INITIAL_TIME))).

(** The ["endpoints"] entry of [read_root]. *)
Definition read_root_endpoints : list (string * string) :=
  [("/tide/current", "Mực nước hiện tại");
   ("/tide/daily-extremes", "Triều cường và triều kém trong ngày");
   ("/tide/forecast?days=N", "Dự báo N ngày (mặc định 1, max 365)");
   ("/tide/chart?days=N", "Biểu đồ dự báo N ngày (mặc định 3, max 10)");
   ("/tide/validate", "Validation với dữ liệu 01/02/2026")]%string.

(** * Properties *)

(** ** Rounding *)

Lemma rint_bounds (x : R) : (- (1 / 2) <= IZR (rint x) - x <= 1 / 2)%R.
Proof.
  unfold rint.
  pose proof (Zfloor_bound x) as [Hlo Hhi].
  destruct (Rlt_dec (x - IZR (Zfloor x)) (1 / 2)) as [Hd | Hd]; [lra |].
  assert (Hup : (- (1 / 2) <= IZR (Zfloor x + 1) - x <= 1 / 2)%R)
    by (rewrite plus_IZR; lra).
  destruct (Rlt_dec (1 / 2) (x - IZR (Zfloor x))) as [Hd' | Hd']; [exact Hup |].
  destruct (Z.even (Zfloor x)); [lra | exact Hup].
Qed.

Lemma round2_error (x : R) : (Rabs (round2 x - x) <= 1 / 200)%R.
Proof.
  unfold round2, round2_centi.
  pose proof (rint_bounds (x * 100)) as H.
  apply Rabs_le. lra.
Qed.

Lemma rint_small (x : R) : (0 <= x < 1 / 2)%R -> rint x = 0.
Proof.
  intros [H0 H1]. unfold rint.
  assert (Hf : Zfloor x = 0) by (apply Zfloor_eq; simpl; lra).
  rewrite Hf. simpl.
  destruct (Rlt_dec (x - 0) (1 / 2)) as [_ | Hn]; [reflexivity | lra].
Qed.

(** ** Synthesis *)

Lemma from_amplitude_phase_terms (speed : string -> R) (t : R) :
  forall (names : list string) (hs gs : list R),
    Uptide.from_amplitude_phase (Uptide.make speed names) hs (map radians gs) t
    = fold_right Rplus 0%R
        (map (fun '(n, h, g) => (h * cos (speed n * t - g * PI / 180))%R)
             (combine (combine names hs) gs)).
Proof.
  unfold Uptide.from_amplitude_phase, Uptide.make. simpl.
  induction names as [| n names IH]; intros hs gs; [reflexivity |].
  destruct hs as [| h hs]; [reflexivity |].
  destruct gs as [| g gs]; [reflexivity |].
  simpl. rewrite IH. reflexivity.
Qed.

Lemma calculate_tide_aware (speed : string -> R) (names : list string)
  (hs gs : list R) (a0 : R) (t : Time.aware) :
  calculate_tide speed names hs gs a0 (Time.Aware t)
  = Ok (round2 (a0 + eta_of speed names hs gs
                       (Time.total_seconds (Time.instant t - Time.instant INITIAL_TIME)))).
Proof. reflexivity. Qed.

Lemma synthesis_level_ok (speed : string -> R) (t : Time.aware) :
  exists level, calculate_tide_uptide speed (Time.Aware t) = Ok level.
Proof. unfold calculate_tide_uptide. rewrite calculate_tide_aware. eauto. Qed.

(** C1, as the code has it: for every instant [t] the level returned for the
    thirteen configured constituents is the mean level 214 plus the sum of
    amplitude times cosine of speed times elapsed seconds minus phase (the
    configured degrees turned into radians), rounded to two decimals, and so
    within 0.005 of that sum; the same holds for a model of one constituent,
    whatever the sign or the size of the elapsed time. *)
Theorem synthesis_is_rounded_superposition :
  forall (speed : string -> R) (t : Time.aware),
    let dt := Time.total_seconds (Time.instant t - Time.instant INITIAL_TIME) in
    (exists level,
        let exact :=
          (A0 + fold_right Rplus 0
                  (map (fun '(n, h, g) => h * cos (speed n * dt - g * PI / 180))
                       (combine (combine CONS_NAMES CONS_H) CONS_G)))%R in
        calculate_tide_uptide speed (Time.Aware t) = Ok level
        /\ List.length (combine (combine CONS_NAMES CONS_H) CONS_G) = 13%nat
        /\ level = round2 exact
        /\ (Rabs (level - exact) <= 1 / 200)%R)
    /\ (forall (name : string) (H G a0 : R),
          exists level,
            let exact := (a0 + H * cos (speed name * dt - G * PI / 180))%R in
            calculate_tide speed [name] [H] [G] a0 (Time.Aware t) = Ok level
            /\ level = round2 exact
            /\ (Rabs (level - exact) <= 1 / 200)%R).
Proof.
  intros speed t dt. split.
  - eexists. cbv zeta. split; [| split; [| split]].
    + unfold calculate_tide_uptide. rewrite calculate_tide_aware. reflexivity.
    + reflexivity.
    + unfold eta_of, tide_model_of, amplitudes_of, phases_of.
      rewrite from_amplitude_phase_terms. reflexivity.
    + unfold eta_of, tide_model_of, amplitudes_of, phases_of.
      rewrite from_amplitude_phase_terms. apply round2_error.
  - intros name H G a0.
    assert (E : eta_of speed [name] [H] [G] dt
                = (H * cos (speed name * dt - G * PI / 180))%R).
    { unfold eta_of, tide_model_of, amplitudes_of, phases_of.
      rewrite from_amplitude_phase_terms. simpl. lra. }
    eexists. cbv zeta. split; [| split].
    + rewrite calculate_tide_aware. reflexivity.
    + fold dt. rewrite E. reflexivity.
    + fold dt. rewrite E. apply round2_error.
Qed.

(** C1, as stated, fails: a model of one constituent with amplitude 0.001,
    phase 0 and mean level 0 gives, at the reference epoch itself, the level
    0.00 where the formula gives 0.001, which is further than 1e-6. *)
Lemma synthesis_tolerance_counterexample :
  exists level,
    calculate_tide (fun _ => 1%R) ["M2"%string] [(1 / 1000)%R] [0%R] 0%R
      (Time.Aware INITIAL_TIME) = Ok level
    /\ (Rabs (level - (0 + 1 / 1000 * cos (1 * 0 - 0 * PI / 180))) > 1 / 1000000)%R.
Proof.
  eexists. split.
  - rewrite calculate_tide_aware. reflexivity.
  - rewrite Z.sub_diag.
    unfold eta_of, tide_model_of, amplitudes_of, phases_of.
    rewrite from_amplitude_phase_terms. simpl.
    unfold Time.total_seconds.
    replace (1 * (0 / IZR Time.us_per_second) - 0 * PI / 180)%R with 0%R
      by (unfold Rdiv; ring).
    replace (1 * 0 - 0 * PI / 180)%R with 0%R by (unfold Rdiv; ring).
    rewrite cos_0.
    unfold round2, round2_centi.
    rewrite rint_small by lra.
    rewrite Rabs_left by lra. lra.
Qed.

(** ** The extrema detector *)

Section Detector.

Import Peaks.

Local Open Scope nat_scope.

Lemma dist_sym (a b : nat) : dist a b = dist b a.
Proof. unfold dist. lia. Qed.

Lemma falls_after_nonempty (v : Z) (tl : list Z) :
  falls_after v tl = true -> 0 < List.length tl.
Proof. destruct tl; simpl; [discriminate | lia]. Qed.

Lemma scan_bounds (rest : list Z) :
  forall (i : nat) (prev : Z) (j : nat),
    In j (scan i prev rest) -> i <= j /\ S j < i + List.length rest.
Proof.
  induction rest as [| cur tl IH]; intros i prev j Hj; simpl in Hj; [contradiction |].
  destruct ((prev <? cur)%Z && falls_after cur tl) eqn:E.
  - destruct Hj as [<- | Hj].
    + apply andb_prop in E as [_ E]. apply falls_after_nonempty in E. simpl. lia.
    + apply IH in Hj. simpl. lia.
  - apply IH in Hj. simpl. lia.
Qed.

Lemma local_maxima_bounds (x : list Z) (j : nat) :
  In j (local_maxima x) -> 0 < j /\ S j < List.length x.
Proof.
  destruct x as [| x0 tl]; simpl; [contradiction |].
  intros Hj. apply scan_bounds in Hj. lia.
Qed.

Lemma scan_increasing (rest : list Z) :
  forall (i : nat) (prev : Z), StronglySorted lt (scan i prev rest).
Proof.
  induction rest as [| cur tl IH]; intros i prev; simpl; [constructor |].
  destruct ((prev <? cur)%Z && falls_after cur tl).
  - constructor; [apply IH |].
    apply Forall_forall. intros j Hj. apply scan_bounds in Hj. lia.
  - apply IH.
Qed.

Lemma local_maxima_increasing (x : list Z) : StronglySorted lt (local_maxima x).
Proof. destruct x; simpl; [constructor | apply scan_increasing]. Qed.

Lemma filter_increasing (f : nat -> bool) (l : list nat) :
  StronglySorted lt l -> StronglySorted lt (filter f l).
Proof.
  induction 1 as [| a l Hs IH Ha]; simpl; [constructor |].
  destruct (f a); [| exact IH].
  constructor; [exact IH |].
  rewrite Forall_forall in *. intros y Hy. apply filter_In in Hy. apply Ha, Hy.
Qed.

Lemma mem_accepted (c : nat) (accepted : list nat) :
  existsb (Nat.eqb c) accepted = true <-> In c accepted.
Proof.
  rewrite existsb_exists. split.
  - intros [y [Hy E]]. apply Nat.eqb_eq in E. subst. exact Hy.
  - intros H. exists c. split; [exact H | apply Nat.eqb_refl].
Qed.

Lemma find_peaks_In (x : list Z) (d c : nat) :
  In c (find_peaks x d)
  <-> In c (local_maxima x)
      /\ In c (select d (by_decreasing_level (fun i => nth i x 0%Z) (local_maxima x)) []).
Proof. unfold find_peaks. rewrite filter_In, mem_accepted. reflexivity. Qed.

(** *** The order of suppression *)

Section Order.

Variable lvl : nat -> Z.

Lemma insert_by_In (c y : nat) (l : list nat) :
  In y (insert_by lvl c l) <-> y = c \/ In y l.
Proof.
  induction l as [| h t IH]; simpl.
  - intuition.
  - destruct (lvl h <? lvl c)%Z; simpl; [intuition |].
    rewrite IH. intuition.
Qed.

Lemma insert_by_sorted (c : nat) (l : list nat) :
  StronglySorted (higher_first lvl) l -> StronglySorted (higher_first lvl) (insert_by lvl c l).
Proof.
  induction 1 as [| h t Hs IH Hh]; simpl.
  - constructor; [constructor | constructor].
  - destruct (lvl h <? lvl c)%Z eqn:E.
    + apply Z.ltb_lt in E.
      constructor; [constructor; assumption |].
      constructor; [unfold higher_first; lia |].
      rewrite Forall_forall in *. intros y Hy.
      specialize (Hh y Hy). unfold higher_first in *. lia.
    + apply Z.ltb_ge in E.
      constructor; [exact IH |].
      apply Forall_forall. intros y Hy. apply insert_by_In in Hy as [-> | Hy].
      * exact E.
      * rewrite Forall_forall in Hh. apply Hh, Hy.
Qed.

Lemma by_decreasing_level_In (y : nat) (cands : list nat) :
  In y (by_decreasing_level lvl cands) <-> In y cands.
Proof.
  unfold by_decreasing_level.
  induction cands as [| c t IH]; simpl; [reflexivity |].
  rewrite insert_by_In, IH. intuition.
Qed.

Lemma by_decreasing_level_sorted (cands : list nat) :
  StronglySorted (higher_first lvl) (by_decreasing_level lvl cands).
Proof.
  unfold by_decreasing_level.
  induction cands as [| c t IH]; simpl; [constructor |].
  apply insert_by_sorted, IH.
Qed.

End Order.

(** *** Greedy selection *)

Lemma far_from_all_spec (d c : nat) (accepted : list nat) :
  far_from_all d c accepted = true <-> forall a, In a accepted -> d <= dist c a.
Proof.
  unfold far_from_all. rewrite forallb_forall.
  split; intros H a Ha; specialize (H a Ha); apply Nat.leb_le; exact H.
Qed.

Lemma far_from_all_false (d c : nat) (accepted : list nat) :
  far_from_all d c accepted = false -> exists a, In a accepted /\ dist c a < d.
Proof.
  unfold far_from_all. induction accepted as [| h t IH]; simpl; [discriminate |].
  destruct (d <=? dist c h) eqn:E; simpl.
  - intros H. destruct (IH H) as [a [Ha Hd]]. exists a. auto.
  - intros _. apply Nat.leb_gt in E. exists h. auto.
Qed.

Lemma select_keeps (d : nat) (order : list nat) :
  forall accepted a, In a accepted -> In a (select d order accepted).
Proof.
  induction order as [| c rest IH]; intros accepted a Ha; simpl; [exact Ha |].
  destruct (far_from_all d c accepted); apply IH; simpl; auto.
Qed.

Lemma select_separated (d : nat) (order : list nat) :
  forall accepted, separated d accepted -> separated d (select d order accepted).
Proof.
  induction order as [| c rest IH]; intros accepted Hs; simpl; [exact Hs |].
  destruct (far_from_all d c accepted) eqn:E; [| apply IH, Hs].
  apply IH. rewrite far_from_all_spec in E.
  intros a b [<- | Ha] [<- | Hb] Hab.
  - contradiction.
  - apply E, Hb.
  - rewrite dist_sym. apply E, Ha.
  - apply Hs; assumption.
Qed.

Lemma select_dominated (lvl : nat -> Z) (d : nat) (order : list nat) :
  StronglySorted (higher_first lvl) order ->
  forall accepted,
    (forall a c, In a accepted -> In c order -> (lvl c <= lvl a)%Z) ->
    forall c, In c order -> ~ In c (select d order accepted) ->
      exists a, In a (select d order accepted) /\ dist c a < d /\ (lvl c <= lvl a)%Z.
Proof.
  induction 1 as [| h rest Hs IH Hh]; intros accepted Hacc c Hc Hout;
    [contradiction |].
  rewrite Forall_forall in Hh. simpl in *.
  destruct (far_from_all d h accepted) eqn:E.
  - destruct Hc as [<- | Hc].
    + exfalso. apply Hout, select_keeps. simpl. auto.
    + apply IH; [| exact Hc | exact Hout].
      intros a c' [<- | Ha] Hc'; [apply Hh, Hc' | apply Hacc; auto].
  - destruct Hc as [<- | Hc].
    + apply far_from_all_false in E as [a [Ha Hd]].
      exists a. split; [apply select_keeps, Ha |]. split; [exact Hd |].
      apply Hacc; auto.
    + apply IH; [| exact Hc | exact Hout].
      intros a c' Ha Hc'. apply Hacc; auto.
Qed.

Lemma find_peaks_separated (x : list Z) (d : nat) : separated d (find_peaks x d).
Proof.
  intros a b Ha Hb Hab.
  apply find_peaks_In in Ha as [_ Ha]. apply find_peaks_In in Hb as [_ Hb].
  revert a b Ha Hb Hab. apply select_separated.
  intros a b [].
Qed.

Lemma find_peaks_dominated (x : list Z) (d c : nat) :
  In c (local_maxima x) -> ~ In c (find_peaks x d) ->
  exists a, In a (find_peaks x d) /\ dist c a < d /\ (nth c x 0 <= nth a x 0)%Z.
Proof.
  intros Hc Hout.
  set (lvl := fun i => nth i x 0%Z).
  destruct (select_dominated lvl d (by_decreasing_level lvl (local_maxima x))
              (by_decreasing_level_sorted lvl _) []) with (c := c)
    as [a [Ha [Hd Hl]]].
  - intros a c' [].
  - apply by_decreasing_level_In, Hc.
  - intros Hin. apply Hout, find_peaks_In. auto.
  - exists a. split; [| auto].
    apply find_peaks_In. split; [| exact Ha].
    assert (Hin : In a ([] : list nat) \/ In a (by_decreasing_level lvl (local_maxima x))).
    { clear -Ha. revert Ha. generalize (by_decreasing_level lvl (local_maxima x)).
      generalize (@nil nat).
      intros acc order. revert acc.
      induction order as [| h rest IH]; intros acc; simpl; [auto |].
      destruct (far_from_all d h acc); intros H; apply IH in H; simpl in H; tauto. }
    destruct Hin as [[] | Hin]. apply by_decreasing_level_In in Hin. exact Hin.
Qed.

Lemma find_peaks_top_of_window (x : list Z) (d i : nat) :
  In i (local_maxima x) ->
  (forall k, In k (local_maxima x) -> k <> i -> dist i k < d ->
             (nth k x 0 < nth i x 0)%Z) ->
  In i (find_peaks x d).
Proof.
  intros Hi Htop.
  destruct (in_dec Nat.eq_dec i (find_peaks x d)) as [Hin | Hout]; [exact Hin |].
  destruct (find_peaks_dominated x d i Hi Hout) as [a [Ha [Hd Hl]]].
  assert (Hne : a <> i) by (intros ->; contradiction).
  assert (Hc : In a (local_maxima x)) by (apply find_peaks_In in Ha; tauto).
  specialize (Htop a Hc Hne Hd). lia.
Qed.

Lemma nth_opp (x : list Z) (i : nat) : nth i (map Z.opp x) 0%Z = (- nth i x 0)%Z.
Proof. change 0%Z with (Z.opp 0) at 1. apply map_nth. Qed.

End Detector.

(** C2, as the detector has it: the reported highs, and the reported lows,
    come in ascending order of index; any two reported highs are at least [d]
    indices apart, and so are any two reported lows ([d] is 60 on the path of
    the daily extremes); a candidate is only ever rejected in favour of a
    reported event within the window whose level is at least as high (as low,
    for lows), whatever the scan order; and of two candidates within the
    window the higher (lower) one is reported and the other rejected whenever
    no other candidate within the window of the higher (lower) one reaches
    its level. *)
Theorem extrema_suppression_by_level :
  forall (levels : list Z) (d : nat),
    let lvl := fun i => nth i levels 0%Z in
    let highs := Peaks.find_peaks levels d in
    let lows := Peaks.find_peaks (map Z.opp levels) d in
    let high_cands := Peaks.local_maxima levels in
    let low_cands := Peaks.local_maxima (map Z.opp levels) in
    daily_peaks levels
    = (Peaks.find_peaks levels 60, Peaks.find_peaks (map Z.opp levels) 60)
    /\ StronglySorted lt highs
    /\ StronglySorted lt lows
    /\ (forall a b, In a highs -> In b highs -> a <> b -> (d <= Peaks.dist a b)%nat)
    /\ (forall a b, In a lows -> In b lows -> a <> b -> (d <= Peaks.dist a b)%nat)
    /\ (forall c, In c high_cands -> ~ In c highs ->
          exists a, In a highs /\ (Peaks.dist c a < d)%nat /\ lvl c <= lvl a)
    /\ (forall c, In c low_cands -> ~ In c lows ->
          exists a, In a lows /\ (Peaks.dist c a < d)%nat /\ lvl a <= lvl c)
    /\ (forall i j, In i high_cands -> In j high_cands ->
          (Peaks.dist i j < d)%nat -> lvl j < lvl i ->
          (forall k, In k high_cands -> k <> i -> (Peaks.dist i k < d)%nat ->
                     lvl k < lvl i) ->
          In i highs /\ ~ In j highs)
    /\ (forall i j, In i low_cands -> In j low_cands ->
          (Peaks.dist i j < d)%nat -> lvl i < lvl j ->
          (forall k, In k low_cands -> k <> i -> (Peaks.dist i k < d)%nat ->
                     lvl i < lvl k) ->
          In i lows /\ ~ In j lows).
Proof.
  intros levels d lvl highs lows high_cands low_cands.
  split; [reflexivity |].
  split; [apply filter_increasing, local_maxima_increasing |].
  split; [apply filter_increasing, local_maxima_increasing |].
  split; [apply find_peaks_separated |].
  split; [apply find_peaks_separated |].
  split; [intros c Hc Hout; apply find_peaks_dominated; assumption |].
  split.
  { intros c Hc Hout.
    destruct (find_peaks_dominated _ d c Hc Hout) as [a [Ha [Hd Hl]]].
    exists a. rewrite !nth_opp in Hl. unfold lvl. repeat split; auto. lia. }
  split.
  - intros i j Hi Hj Hd Hl Htop.
    assert (Hin : In i highs) by (apply find_peaks_top_of_window; assumption).
    split; [exact Hin |]. intros Hjn.
    assert (Hne : i <> j) by (intros ->; lia).
    pose proof (find_peaks_separated levels d i j Hin Hjn Hne). lia.
  - intros i j Hi Hj Hd Hl Htop.
    assert (Hin : In i lows).
    { apply find_peaks_top_of_window; [exact Hi |].
      intros k Hk Hne Hdk. rewrite !nth_opp.
      specialize (Htop k Hk Hne Hdk). unfold lvl in Htop. lia. }
    split; [exact Hin |]. intros Hjn.
    assert (Hne : i <> j) by (intros ->; lia).
    pose proof (find_peaks_separated (map Z.opp levels) d i j Hin Hjn Hne). lia.
Qed.

(** On the series 0, 3, 0, 5, 0 with a window of 3 the crest at index 3 is
    reported and the lower crest at index 1, scanned first, is not; on
    0, 10, 0, 5, 0, 3, 0 the reported crests 1 and 5 are 3 apart. *)
Lemma extrema_suppression_by_level_witness :
  (In 3%nat (Peaks.find_peaks [0; 3; 0; 5; 0] 3)
   /\ ~ In 1%nat (Peaks.find_peaks [0; 3; 0; 5; 0] 3))
  /\ (3 <= Peaks.dist 1 5)%nat.
Proof.
  split.
  - destruct (extrema_suppression_by_level [0; 3; 0; 5; 0] 3)
      as (_ & _ & _ & _ & _ & _ & _ & H & _).
    apply (H 3%nat 1%nat); simpl; try lia; auto.
    intros k [<- | [<- | []]] Hne _; [lia | congruence].
  - destruct (extrema_suppression_by_level [0; 10; 0; 5; 0; 3; 0] 3)
      as (_ & _ & _ & H & _).
    apply (H 1%nat 5%nat); simpl; auto.
Defined.

(** C2, as stated, fails: in a day of 288 samples with crests of level 10, 5
    and 3 at the indices 50, 100 and 150, the candidates 100 and 150 lie
    within the window of 60 and the one reported is the lower one, at 150: the
    higher one, at 100, was suppressed by the crest at 50. *)
Lemma extrema_greater_wins_counterexample :
  let levels :=
    repeat 0 50 ++ [10] ++ repeat 0 49 ++ [5] ++ repeat 0 49 ++ [3] ++ repeat 0 137 in
  List.length levels = 288%nat
  /\ In 100%nat (Peaks.local_maxima levels)
  /\ In 150%nat (Peaks.local_maxima levels)
  /\ (Peaks.dist 100 150 < 60)%nat
  /\ nth 150 levels 0 < nth 100 levels 0
  /\ In 150%nat (fst (daily_peaks levels))
  /\ ~ In 100%nat (fst (daily_peaks levels)).
Proof.
  cbv zeta.
  assert (E : fst (daily_peaks
                (repeat 0 50 ++ [10] ++ repeat 0 49 ++ [5] ++ repeat 0 49 ++ [3]
                 ++ repeat 0 137)) = [50; 150]%nat) by (vm_compute; reflexivity).
  assert (C : Peaks.local_maxima
                (repeat 0 50 ++ [10] ++ repeat 0 49 ++ [5] ++ repeat 0 49 ++ [3]
                 ++ repeat 0 137) = [50; 100; 150]%nat) by (vm_compute; reflexivity).
  rewrite E, C.
  split; [vm_compute; reflexivity |].
  split; [simpl; auto |].
  split; [simpl; auto |].
  split; [vm_compute; lia |].
  split; [vm_compute; reflexivity |].
  split; [simpl; auto |].
  simpl. intros [H | [H | []]]; discriminate.
Qed.

(** C7: no high and no low is ever reported at index 0 or at the last index
    of the series, whatever the window; a monotonic series yields no event. *)
Theorem extrema_never_at_edges :
  forall (levels : list Z) (d j : nat),
    In j (Peaks.find_peaks levels d) \/ In j (Peaks.find_peaks (map Z.opp levels) d) ->
    (0 < j /\ j < List.length levels - 1)%nat.
Proof.
  intros levels d j [H | H]; apply find_peaks_In in H as [H _];
    apply local_maxima_bounds in H.
  - lia.
  - rewrite length_map in H. lia.
Qed.

Lemma extrema_never_at_edges_witness :
  (0 < 1 /\ 1 < List.length [0; 1; 0] - 1)%nat.
Proof.
  apply (extrema_never_at_edges [0; 1; 0] 60 1).
  left. unfold Peaks.find_peaks. simpl. auto.
Defined.

Example rising_series_has_no_extremum : daily_peaks [1; 2; 3; 4; 5] = ([], []).
Proof. reflexivity. Qed.

Example falling_series_has_no_extremum : daily_peaks [5; 4; 3; 2; 1] = ([], []).
Proof. reflexivity. Qed.

(** ** The validator *)

Section Validator.

Local Open Scope R_scope.

Lemma np_sub_same (a b : list R) :
  List.length a = List.length b ->
  Np.sub a b = Ok (map (fun '(x, y) => x - y) (combine a b)).
Proof. intros H. unfold Np.sub. rewrite H, Nat.eqb_refl. reflexivity. Qed.

Lemma combine_map_IZR (p : list R) :
  forall o : list Z,
    map (fun '(x, y) => x - y) (combine p (map IZR o))
    = map (fun '(x, z) => x - IZR z) (combine p o).
Proof.
  induction p as [| x p IH]; intros [| z o]; simpl; try reflexivity.
  rewrite IH. reflexivity.
Qed.

Lemma errors_of_same (predicted : list R) (observed : list Z) :
  List.length predicted = List.length observed ->
  errors_of predicted observed
  = Ok (map (fun '(p, o) => p - IZR o) (combine predicted observed)).
Proof.
  intros H. unfold errors_of.
  rewrite np_sub_same by (rewrite length_map; exact H).
  rewrite combine_map_IZR. reflexivity.
Qed.

Lemma fold_Rmax_spec (x : R) (tl : list R) :
  In (fold_right Rmax x tl) (x :: tl)
  /\ forall e, In e (x :: tl) -> e <= fold_right Rmax x tl.
Proof.
  induction tl as [| y tl [IHin IHle]]; simpl.
  - split; [auto |]. intros e [<- | []]. lra.
  - split.
    + apply (Rmax_case y (fold_right Rmax x tl) (fun m => x = m \/ y = m \/ In m tl)).
      * auto.
      * simpl in IHin. destruct IHin; auto.
    + intros e [<- | [<- | He]].
      * eapply Rle_trans; [apply IHle; simpl; auto | apply Rmax_r].
      * apply Rmax_l.
      * eapply Rle_trans; [apply IHle; simpl; auto | apply Rmax_r].
Qed.

Lemma np_max_spec (l : list R) (m : R) :
  Np.max l = Ok m -> In m l /\ forall e, In e l -> e <= m.
Proof.
  destruct l as [| x tl]; simpl; [discriminate |].
  intros H. injection H as <-. apply fold_Rmax_spec.
Qed.

Lemma example_errors :
  errors_of [302; 343; 374] [300; 340; 370]%Z = Ok [2; 3; 4].
Proof.
  rewrite errors_of_same by reflexivity.
  cbn [combine map]. repeat f_equal; lra.
Qed.

Lemma sqrt_29_3 : 3.10 < sqrt (29 / 3) < 3.11.
Proof.
  split.
  - rewrite <- (sqrt_square 3.10) by lra. apply sqrt_lt_1_alt. lra.
  - rewrite <- (sqrt_square 3.11) by lra. apply sqrt_lt_1_alt. lra.
Qed.

Lemma example_statistics :
  exists st,
    statistics_of [2; 3; 4] = Ok st
    /\ mean_error_cm st = 3 /\ mae_cm st = 3
    /\ rmse_cm st = sqrt (29 / 3) /\ max_error_cm st = 4.
Proof.
  unfold statistics_of.
  cbn [map Np.max fold_right bind].
  rewrite !Rabs_pos_eq by lra.
  eexists. split; [reflexivity |].
  cbn [mean_error_cm mae_cm rmse_cm max_error_cm].
  unfold Np.mean, Np.sum. cbn [fold_right List.length map].
  replace (INR 3) with 3 by (simpl; lra).
  split; [lra |]. split; [lra |]. split; [f_equal; lra |].
  rewrite (Rmax_left 4 2) by lra. rewrite Rmax_right by lra. reflexivity.
Qed.

End Validator.

(** C3, as the code computes it: the error at an index is the signed
    difference predicted minus observed, the mean error their arithmetic
    mean, the mean absolute error the mean of their absolute values, the root
    mean square error the square root of the mean of their squares and the
    maximum error the largest absolute value; for predicted 302, 343, 374
    against observed 300, 340, 370 the errors are 2, 3, 4, so the mean error
    is 3, the mean absolute error 3, the root mean square error the square
    root of 29/3, between 3.10 and 3.11, and the maximum error 4. *)
Theorem validator_statistics :
  (forall (predicted : list R) (observed : list Z),
      List.length predicted = List.length observed ->
      (0 < List.length predicted)%nat ->
      exists errors st,
        errors_of predicted observed = Ok errors
        /\ errors = map (fun '(p, o) => (p - IZR o)%R) (combine predicted observed)
        /\ statistics_of errors = Ok st
        /\ mean_error_cm st = (Np.sum errors / INR (List.length errors))%R
        /\ mae_cm st = (Np.sum (map Rabs errors) / INR (List.length errors))%R
        /\ rmse_cm st
           = sqrt (Np.sum (map (fun e => e * e) errors) / INR (List.length errors))%R
        /\ In (max_error_cm st) (map Rabs errors)
        /\ (forall e, In e errors -> (Rabs e <= max_error_cm st)%R))
  /\ (exists st,
        errors_of [302; 343; 374]%R [300; 340; 370] = Ok [2; 3; 4]%R
        /\ statistics_of [2; 3; 4]%R = Ok st
        /\ mean_error_cm st = 3%R
        /\ mae_cm st = 3%R
        /\ rmse_cm st = sqrt (29 / 3)
        /\ (3.10 < rmse_cm st < 3.11)%R
        /\ max_error_cm st = 4%R).
Proof.
  split.
  - intros predicted observed Hlen Hpos.
    rewrite errors_of_same by exact Hlen.
    set (errors := map _ _).
    assert (Hne : errors <> []).
    { unfold errors. destruct predicted, observed; simpl in *; try lia; discriminate. }
    assert (Hmax : exists mx, Np.max (map Rabs errors) = Ok mx).
    { destruct errors; [congruence |]. simpl. eexists. reflexivity. }
    destruct Hmax as [mx E].
    exists errors. eexists. split; [reflexivity |]. split; [reflexivity |].
    split; [unfold statistics_of; rewrite E; reflexivity |].
    apply np_max_spec in E as [Hin Hle].
    cbn [mean_error_cm mae_cm rmse_cm max_error_cm]. unfold Np.mean.
    rewrite !length_map.
    repeat (split; [reflexivity |]).
    split; [exact Hin |].
    intros e He. apply Hle, in_map, He.
  - destruct example_statistics as [st (Hst & Hm & Ha & Hr & Hx)].
    exists st. split; [apply example_errors |].
    repeat (split; [assumption |]).
    split; [rewrite Hr; apply sqrt_29_3 | exact Hx].
Qed.

Lemma validator_statistics_witness :
  exists errors st,
    errors_of [302; 343; 374]%R [300; 340; 370] = Ok errors
    /\ statistics_of errors = Ok st
    /\ (forall e, In e errors -> (Rabs e <= max_error_cm st)%R).
Proof.
  destruct (proj1 validator_statistics [302; 343; 374]%R [300; 340; 370])
    as [errors [st H]]; [reflexivity | simpl; lia |].
  exists errors, st. tauto.
Defined.

(** C3, as stated, fails: on the example the mean error, the mean absolute
    error and the root mean square error are 3, 3 and about 3.11, none of
    them near 3.33. *)
Lemma validator_example_counterexample :
  exists st,
    errors_of [302; 343; 374]%R [300; 340; 370] = Ok [2; 3; 4]%R
    /\ statistics_of [2; 3; 4]%R = Ok st
    /\ (Rabs (mean_error_cm st - 3.33) > 0.3)%R
    /\ (Rabs (mae_cm st - 3.33) > 0.3)%R
    /\ (Rabs (rmse_cm st - 3.33) > 0.2)%R.
Proof.
  destruct example_statistics as [st (Hst & Hm & Ha & Hr & Hx)].
  exists st. split; [apply example_errors |]. split; [exact Hst |].
  rewrite Hm, Ha, Hr. pose proof sqrt_29_3 as [_ Hs].
  repeat split; rewrite Rabs_left by lra; lra.
Qed.

Section ValidatorLengths.

Lemma for_each_ok {A B : Type} (f : A -> py B) (xs : list A) :
  (forall x, In x xs -> exists y, f x = Ok y) ->
  exists ys, for_each f xs = Ok ys /\ List.length ys = List.length xs.
Proof.
  induction xs as [| x tl IH]; intros H; simpl.
  - exists []. auto.
  - destruct (H x) as [y Hy]; [simpl; auto |].
    destruct IH as [ys [Hys Hl]]; [intros z Hz; apply H; simpl; auto |].
    rewrite Hy, Hys. simpl. exists (y :: ys). simpl. auto.
Qed.

Lemma index_ok {A : Type} (a : list A) (i : nat) :
  (i < List.length a)%nat -> exists v, Np.index a i = Ok v.
Proof.
  intros H. unfold Np.index.
  destruct (nth_error a i) as [v |] eqn:E; [eauto |].
  apply nth_error_None in E. lia.
Qed.

Lemma validate_from_ok (actual : list Z) (predicted : list R) :
  List.length predicted = List.length actual ->
  (24 <= List.length actual)%nat ->
  exists report,
    validate_from actual predicted = Ok report
    /\ List.length (comparison report) = 24%nat.
Proof.
  intros Hlen Hn. unfold validate_from.
  rewrite errors_of_same by exact Hlen.
  set (errors := map _ _).
  assert (He : List.length errors = List.length actual).
  { unfold errors. rewrite length_map, length_combine. lia. }
  cbn [bind].
  match goal with
  | |- context [for_each ?f (seq 0 24)] =>
      destruct (for_each_ok f (seq 0 24)) as [rows [Hrows Hl]]
  end.
  { intros i Hi. apply in_seq in Hi.
    destruct (index_ok actual i) as [a Ha]; [lia |].
    destruct (index_ok predicted i) as [p Hp]; [lia |].
    destruct (index_ok errors i) as [e Hee]; [lia |].
    rewrite Ha, Hp, Hee. simpl. eauto. }
  rewrite Hrows. cbn [bind].
  assert (Hmax : exists mx, Np.max (map Rabs errors) = Ok mx).
  { destruct errors; [simpl in He; lia |]. simpl. eexists. reflexivity. }
  destruct Hmax as [mx E].
  unfold statistics_of. rewrite E. cbn [bind].
  eexists. split; [reflexivity |]. simpl. rewrite Hl. apply length_seq.
Qed.

Lemma validate_from_mismatch (actual : list Z) (predicted : list R) :
  List.length predicted <> List.length actual ->
  validate_from actual predicted = Raise ValueError
  \/ validate_from actual predicted = Raise IndexError.
Proof.
  intros Hne. unfold validate_from, errors_of, Np.sub. rewrite length_map.
  destruct (List.length predicted =? List.length actual)%nat eqn:E0;
    [apply Nat.eqb_eq in E0; contradiction |].
  destruct (List.length actual =? 1)%nat eqn:E1.
  - right. apply Nat.eqb_eq in E1.
    destruct actual as [| a [| b tl]]; try discriminate.
    destruct predicted as [| p ps]; reflexivity.
  - destruct (List.length predicted =? 1)%nat eqn:E2.
    + right. apply Nat.eqb_eq in E2.
      destruct predicted as [| p [| q ps]]; try discriminate.
      destruct actual as [| a [| b tl]]; try discriminate; reflexivity.
    + left. reflexivity.
Qed.

Lemma validation_inputs_length (speed : string -> R) :
  List.length (levels_of speed CONS_NAMES CONS_H CONS_G A0 validation_hours_utc)
  = 24%nat
  /\ List.length actual_data = 24%nat.
Proof.
  unfold levels_of, levels_centi, validation_hours_utc.
  rewrite !length_map, length_seq. split; reflexivity.
Qed.

End ValidatorLengths.



(** ** Series generation *)

Section Series.

Lemma in_range (n k : Z) : In k (range n) <-> 0 <= k < n.
Proof.
  unfold range. rewrite in_map_iff. split.
  - intros [m [<- Hm]]. apply in_seq in Hm. lia.
  - intros H. exists (Z.to_nat k). split; [lia |]. apply in_seq. lia.
Qed.

Lemma length_range (n : Z) : List.length (range n) = Z.to_nat n.
Proof. unfold range. rewrite length_map, length_seq. reflexivity. Qed.

Lemma sorted_app {A : Type} (R : A -> A -> Prop) (l1 l2 : list A) :
  StronglySorted R l1 -> StronglySorted R l2 ->
  (forall x y, In x l1 -> In y l2 -> R x y) ->
  StronglySorted R (l1 ++ l2).
Proof.
  induction 1 as [| a l1 Hs IH Ha]; intros H2 Hx; simpl; [exact H2 |].
  constructor.
  - apply IH; [exact H2 |]. intros x y Hx1 Hy. apply Hx; simpl; auto.
  - apply Forall_app. split; [exact Ha |].
    apply Forall_forall. intros y Hy. apply Hx; simpl; auto.
Qed.

Lemma sorted_rev {A : Type} (R : A -> A -> Prop) (l : list A) :
  StronglySorted (fun a b => R b a) l -> StronglySorted R (rev l).
Proof.
  induction 1 as [| a l Hs IH Ha]; simpl; [constructor |].
  apply sorted_app; [exact IH | repeat constructor |].
  intros x y Hx [<- | []]. rewrite Forall_forall in Ha.
  apply Ha, in_rev, Hx.
Qed.

Lemma sorted_map_seq {A : Type} (R : A -> A -> Prop) (f : Z -> A) :
  (forall i j, 0 <= i < j -> R (f i) (f j)) ->
  forall len start, StronglySorted R (map f (map Z.of_nat (seq start len))).
Proof.
  intros Hf. induction len as [| len IH]; intros start; simpl; constructor.
  - apply IH.
  - apply Forall_forall. intros y Hy.
    apply in_map_iff in Hy as [k [<- Hk]]. apply in_map_iff in Hk as [m [<- Hm]].
    apply in_seq in Hm. apply Hf. lia.
Qed.

Lemma chart_interval_cases (a : Z) :
  chart_interval_minutes a = 15 \/ chart_interval_minutes a = 30
  \/ chart_interval_minutes a = 60.
Proof.
  unfold chart_interval_minutes.
  destruct (a <=? 10); [auto |]. destruct (a <=? 20); auto.
Qed.

Lemma chart_abs_days_bounds (days : Z) : 1 <= chart_abs_days_of days <= 365.
Proof.
  unfold chart_abs_days_of.
  destruct (Z.abs days <? 1) eqn:E1.
  - simpl. lia.
  - apply Z.ltb_ge in E1. destruct (365 <? Z.abs days) eqn:E2; [lia |].
    apply Z.ltb_ge in E2. lia.
Qed.

Lemma chart_num_points_pos (a : Z) : 1 <= a -> 24 * a <= chart_num_points a.
Proof.
  intros Ha. unfold chart_num_points.
  destruct (chart_interval_cases a) as [E | [E | E]]; rewrite E.
  - change (24 * 60 / 15) with 96. lia.
  - change (24 * 60 / 30) with 48. lia.
  - change (24 * 60 / 60) with 24. lia.
Qed.

Lemma chart_time_range_length (days now : Z) :
  List.length (chart_time_range days now)
  = Z.to_nat (chart_num_points (chart_abs_days_of days)).
Proof.
  unfold chart_time_range.
  destruct (days <? 0); rewrite ?length_rev, length_map, length_range; reflexivity.
Qed.

Lemma chart_time_range_past_sorted (days now : Z) :
  days < 0 -> StronglySorted Time.before (chart_time_range days now).
Proof.
  intros Hd. unfold chart_time_range.
  apply Z.ltb_lt in Hd. rewrite Hd.
  apply sorted_rev. unfold range. apply sorted_map_seq.
  intros i j Hij. unfold Time.before, Time.instant, Time.add, Time.minutes,
    Time.us_per_second. simpl.
  destruct (chart_interval_cases (chart_abs_days_of days)) as [E | [E | E]];
    rewrite E; lia.
Qed.

End Series.

(** C5: for a negative number of days the points of the chart are taken at
    the current instant minus [i] times the cadence, for [i] from 0 up to the
    number of points, and handed on in reverse, so that their instants are
    strictly increasing; the levels follow the same order. *)
Theorem backward_series_chronological :
  forall (days now : Z),
    days < 0 ->
    let abs_days := chart_abs_days_of days in
    let cadence := chart_interval_minutes abs_days in
    chart_time_range days now
    = rev (map (fun i => Time.add (now_utc_at now) (- Time.minutes (cadence * i)))
               (range (chart_num_points abs_days)))
    /\ StronglySorted Time.before (chart_time_range days now)
    /\ (forall (speed : string -> R) (strftime : string -> Time.aware -> string),
          chart_values (get_tide_chart speed strftime days now)
          = levels_of speed CONS_NAMES CONS_H CONS_G A0 (chart_time_range days now)).
Proof.
  intros days now Hd abs_days cadence. split; [| split].
  - unfold chart_time_range. apply Z.ltb_lt in Hd. rewrite Hd. reflexivity.
  - apply chart_time_range_past_sorted, Hd.
  - reflexivity.
Qed.

Lemma backward_series_chronological_witness :
  StronglySorted Time.before (chart_time_range (-1) 0).
Proof.
  apply (backward_series_chronological (-1) 0). lia.
Defined.

(** ** The hourly forecast *)

Section Forecast.

Variable speed : string -> R.
Variable isoformat : Time.aware -> string.
Variable date_range_negative : py (list Time.aware).

Lemma date_range_ok (start : Time.aware) (periods : Z) (freq : Time.timedelta) :
  0 <= periods ->
  date_range date_range_negative start periods freq
  = Ok (map (fun i => Time.add start (i * freq)) (range periods)).
Proof.
  intros H. unfold date_range.
  destruct (periods <? 0) eqn:E; [apply Z.ltb_lt in E; lia | reflexivity].
Qed.

Lemma forecast_clamp (days : Z) : (if 30 <? days then 30 else days) = Z.min days 30.
Proof. destruct (30 <? days) eqn:E; [apply Z.ltb_lt in E | apply Z.ltb_ge in E]; lia. Qed.

Lemma get_forecast_ok (days now : Z) :
  0 <= days ->
  exists resp,
    get_forecast speed isoformat date_range_negative days now = Ok resp
    /\ forecast_period resp = Z.min days 30
    /\ List.length (forecast resp) = Z.to_nat (Z.min days 30 * 24)
    /\ (forall ev, In ev (forecast resp) ->
          exists i, 0 <= i < Z.min days 30 * 24
                    /\ ev_time_local ev
                       = isoformat (Time.astimezone VN_TIMEZONE
                                      (Time.add (now_utc_at now) (i * Time.hours 1)))).
Proof.
  intros Hd. unfold get_forecast. rewrite forecast_clamp.
  rewrite date_range_ok by lia. cbn [bind].
  eexists. split; [reflexivity |]. cbn [forecast_period forecast].
  split; [reflexivity |]. split.
  - rewrite length_map, length_combine, length_seq, length_map, length_range. lia.
  - intros ev Hev. apply in_map_iff in Hev as [[k t] [<- Hin]].
    apply in_combine_r in Hin. apply in_map_iff in Hin as [i [<- Hi]].
    apply in_range in Hi. exists i. split; [exact Hi | reflexivity].
Qed.

End Forecast.






(** ** The local time zone *)

Section LocalTime.

Lemma astimezone_vn_utc (t : Time.aware) :
  Time.utcoffset t = Time.utc -> Time.astimezone VN_TIMEZONE t = t.
Proof.
  destruct t as [w off]. simpl. intros ->.
  unfold Time.astimezone, Time.instant, VN_TIMEZONE, Time.hours, Time.utc. simpl.
  f_equal. lia.
Qed.

Lemma peak_events_local (strftime : string -> Time.aware -> string)
  (time_range : list Time.aware) (levels : list Z) (peaks : list nat)
  (ev : tide_event) :
  In ev (peak_events strftime time_range levels peaks) ->
  exists t, In t time_range
            /\ ev_time_local ev
               = strftime "%Y-%m-%d %H:%M:%S"%string (Time.astimezone VN_TIMEZONE t).
Proof.
  unfold peak_events. intros H. apply in_flat_map in H as [idx [_ H]].
  destruct (idx <? List.length time_range)%nat eqn:E; [| contradiction].
  apply Nat.ltb_lt in E. destruct H as [<- | []].
  exists (nth idx time_range INITIAL_TIME). split; [apply nth_In, E | reflexivity].
Qed.

End LocalTime.

(** C10: the zone named local has offset zero, so converting a UTC datetime
    to it changes nothing and every [time_local] of a response is the text of
    the UTC datetime itself, under the label GMT+7: in the current level, in
    the daily extremes, in the forecast and on the chart; and the validation
    takes 2026-02-01 00:00 local for 2026-02-01 00:00 UTC, predicting for the
    24 hours of that UTC day, which in a zone seven hours ahead would each be
    seven hours earlier. *)
Theorem local_time_is_utc :
  VN_TIMEZONE = Time.utc
  /\ (forall t : Time.aware,
        Time.utcoffset t = Time.utc -> Time.astimezone VN_TIMEZONE t = t)
  /\ (forall (speed : string -> R) (strftime : string -> Time.aware -> string)
             (now : Z),
        exists r,
          get_current_tide speed strftime now = Ok r
          /\ cur_time_local r = strftime "%Y-%m-%d %H:%M:%S"%string (now_utc_at now)
          /\ cur_time_utc r = strftime "%Y-%m-%d %H:%M:%S UTC"%string (now_utc_at now)
          /\ cur_timezone r = "GMT+7"%string)
  /\ (forall (speed : string -> R) (strftime : string -> Time.aware -> string)
             (date_range_negative : py (list Time.aware)) (now : Z),
        exists resp,
          get_daily_extremes speed strftime date_range_negative now = Ok resp
          /\ forall ev, In ev (high_tides resp ++ low_tides resp) ->
               exists i, 0 <= i < 288
                 /\ ev_time_local ev
                    = strftime "%Y-%m-%d %H:%M:%S"%string
                        (Time.add (start_of_day (now_utc_at now)) (i * Time.minutes 5))
                 /\ Time.utcoffset
                      (Time.add (start_of_day (now_utc_at now)) (i * Time.minutes 5))
                    = Time.utc)
  /\ (forall (speed : string -> R) (isoformat : Time.aware -> string)
             (date_range_negative : py (list Time.aware)) (days now : Z),
        0 <= days ->
        exists resp,
          get_forecast speed isoformat date_range_negative days now = Ok resp
          /\ forall ev, In ev (forecast resp) ->
               exists i, 0 <= i < Z.min days 30 * 24
                 /\ ev_time_local ev
                    = isoformat (Time.add (now_utc_at now) (i * Time.hours 1))
                 /\ Time.utcoffset (Time.add (now_utc_at now) (i * Time.hours 1))
                    = Time.utc)
  /\ (forall (speed : string -> R) (strftime : string -> Time.aware -> string)
             (days now : Z),
        chart_labels (get_tide_chart speed strftime days now)
        = map (strftime "%H:%M %d/%m"%string) (chart_time_range days now))
  /\ validation_hours_utc
     = map (fun i => Time.mk 2026 2 1 (Z.of_nat i) 0 0 Time.utc) (seq 0 24)
  /\ (forall i : Z,
        Time.instant (Time.mk 2026 2 1 i 0 0 (Time.hours 7))
        = Time.instant (Time.mk 2026 2 1 i 0 0 Time.utc) - Time.hours 7).
Proof.
  split; [reflexivity |].
  split; [apply astimezone_vn_utc |].
  split.
  { intros speed strftime now.
    destruct (synthesis_level_ok speed (now_utc_at now)) as [level Hl].
    unfold get_current_tide. rewrite Hl. cbn [bind].
    eexists. split; [reflexivity |]. cbn.
    rewrite astimezone_vn_utc by reflexivity. auto. }
  split.
  { intros speed strftime drn now.
    unfold get_daily_extremes. rewrite date_range_ok by lia. cbn [bind].
    unfold daily_peaks. eexists. split; [reflexivity |].
    cbn [high_tides low_tides]. intros ev Hev.
    assert (Ht : exists t,
               In t (map (fun i => Time.add (start_of_day (now_utc_at now))
                                     (i * Time.minutes 5)) (range 288))
               /\ ev_time_local ev
                  = strftime "%Y-%m-%d %H:%M:%S"%string
                      (Time.astimezone VN_TIMEZONE t)).
    { apply in_app_or in Hev as [Hev | Hev]; eapply peak_events_local; exact Hev. }
    destruct Ht as [t [Hin Ht]].
    apply in_map_iff in Hin as [i [<- Hi]]. apply in_range in Hi.
    exists i. split; [exact Hi |].
    rewrite astimezone_vn_utc in Ht by reflexivity. auto. }
  split.
  { intros speed isoformat drn days now Hd.
    destruct (get_forecast_ok speed isoformat drn days now Hd)
      as [resp (Hr & _ & _ & Hev)].
    exists resp. split; [exact Hr |]. intros ev Hin.
    destruct (Hev ev Hin) as [i [Hi Ht]]. exists i. split; [exact Hi |].
    rewrite astimezone_vn_utc in Ht by reflexivity. auto. }
  split.
  { intros speed strftime days now. unfold get_tide_chart. cbn [chart_labels].
    apply map_ext_in. intros t Ht. rewrite astimezone_vn_utc; [reflexivity |].
    unfold chart_time_range in Ht.
    destruct (days <? 0); [apply in_rev in Ht |];
      apply in_map_iff in Ht as [i [<- _]]; reflexivity. }
  split.
  { unfold validation_hours_utc. apply map_ext. intros i.
    unfold Time.add, Time.astimezone, Time.instant, Time.mk, VN_TIMEZONE,
      Time.hours, Time.utc, Time.us_per_second. cbn [Time.wall Time.utcoffset].
    f_equal. lia. }
  intros i. unfold Time.instant, Time.mk. cbn [Time.wall Time.utcoffset].
  unfold Time.utc. lia.
Qed.

Lemma local_time_is_utc_witness :
  Time.astimezone VN_TIMEZONE INITIAL_TIME = INITIAL_TIME.
Proof.
  apply (proj1 (proj2 local_time_is_utc)). reflexivity.
Defined.

(** ** Checks on concrete values *)

Example epoch_ordinal : Time.ymd2ord 2000 1 1 = 730120.
Proof. reflexivity. Qed.

Example validation_day_elapsed :
  Time.instant (Time.mk 2026 2 1 0 0 0 VN_TIMEZONE) - Time.instant INITIAL_TIME
  = 9528 * 86400 * Time.us_per_second.
Proof. reflexivity. Qed.

Example hour_label_7 : hour_label 7 = "07:00"%string.
Proof. reflexivity. Qed.

Example hour_label_23 : hour_label 23 = "23:00"%string.
Proof. reflexivity. Qed.

Example observed_23_against_predicted_24 :
  validate_from (removelast actual_data) (map IZR actual_data) = Raise ValueError.
Proof. reflexivity. Qed.

Example chart_one_day_back :
  List.length (chart_time_range (-1) 0) = 96%nat
  /\ hd_error (chart_time_range (-1) 0)
     = Some (Time.add (now_utc_at 0) (- Time.minutes (15 * 95)))
  /\ last (chart_time_range (-1) 0) INITIAL_TIME = now_utc_at 0.
Proof. repeat split; reflexivity. Qed.

Example naive_datetime_raises :
  calculate_tide_uptide (fun _ => 0%R) (Time.Naive 0) = Raise TypeError.
Proof. reflexivity. Qed.

Example plateau_counted_once : Peaks.find_peaks [0; 5; 5; 5; 0; 7; 0] 1 = [1; 5]%nat.
Proof. reflexivity. Qed.

Example lower_crest_scanned_first : Peaks.find_peaks [0; 3; 0; 5; 0] 3 = [3]%nat.
Proof. reflexivity. Qed.

(** * Further properties of the handlers *)

(** ** Levels *)

Section Levels.

Local Open Scope R_scope.

Lemma calculate_level_at (speed : string -> R) (t : Time.aware) :
  calculate_tide_uptide speed (Time.Aware t) = Ok (level_at speed t).
Proof. reflexivity. Qed.

Lemma levels_of_level_at (speed : string -> R) (time_range : list Time.aware) :
  levels_of speed CONS_NAMES CONS_H CONS_G A0 time_range
  = map (level_at speed) time_range.
Proof. unfold levels_of, levels_centi. rewrite map_map. reflexivity. Qed.

Lemma instant_astimezone (tz : Time.timezone) (t : Time.aware) :
  Time.instant (Time.astimezone tz t) = Time.instant t.
Proof. unfold Time.astimezone, Time.instant. simpl. lia. Qed.

Lemma level_at_instant (speed : string -> R) (a b : Time.aware) :
  Time.instant a = Time.instant b -> level_at speed a = level_at speed b.
Proof. intros H. unfold level_at. rewrite H. reflexivity. Qed.

Lemma sum_abs_nonneg (l : list R) : 0 <= Np.sum (map Rabs l).
Proof.
  induction l as [| x l IH]; simpl; [lra |].
  pose proof (Rabs_pos x). lra.
Qed.

End Levels.

(** X1: the level depends on the instant only.  Two aware datetimes that
    denote one instant, whatever their zones, get the same answer, so the
    conversion of a datetime to another zone never changes its level; a naive
    datetime is refused with [TypeError]. *)
Theorem level_depends_on_instant_only :
  forall speed : string -> R,
    (forall a b : Time.aware,
        Time.instant a = Time.instant b ->
        calculate_tide_uptide speed (Time.Aware a)
        = calculate_tide_uptide speed (Time.Aware b))
    /\ (forall (tz : Time.timezone) (t : Time.aware),
          calculate_tide_uptide speed (Time.Aware (Time.astimezone tz t))
          = calculate_tide_uptide speed (Time.Aware t))
    /\ (forall w : Z, calculate_tide_uptide speed (Time.Naive w) = Raise TypeError).
Proof.
  intros speed. split; [| split].
  - intros a b H. rewrite !calculate_level_at. f_equal. apply level_at_instant, H.
  - intros tz t. rewrite !calculate_level_at. f_equal.
    apply level_at_instant, instant_astimezone.
  - reflexivity.
Qed.

(** Seven in the morning of a zone seven hours ahead is midnight UTC. *)
Lemma level_depends_on_instant_only_witness :
  calculate_tide_uptide (fun _ => 0%R)
    (Time.Aware (Time.mk 2026 2 1 7 0 0 (Time.hours 7)))
  = calculate_tide_uptide (fun _ => 0%R) (Time.Aware (Time.mk 2026 2 1 0 0 0 Time.utc)).
Proof.
  apply (proj1 (level_depends_on_instant_only (fun _ => 0%R))).
  vm_compute. reflexivity.
Defined.

(** ** The entries of the forecast *)

Section ForecastEntries.

Variable speed : string -> R.
Variable isoformat : Time.aware -> string.
Variable date_range_negative : py (list Time.aware).

Lemma map_enumerate_from {A B : Type} (g : nat -> A -> B) (h : A -> B) (l : list A) :
  forall s : nat,
    (forall i x, nth_error l i = Some x -> g (s + i)%nat x = h x) ->
    map (fun '(i, x) => g i x) (combine (seq s (List.length l)) l) = map h l.
Proof.
  induction l as [| a l IH]; intros s H; simpl; [reflexivity |].
  f_equal.
  - rewrite <- (H 0%nat a eq_refl). f_equal. lia.
  - apply IH. intros i x Hi. rewrite <- (H (S i) x Hi). f_equal. lia.
Qed.

Lemma nth_levels_of (time_range : list Time.aware) (i : nat) (t : Time.aware) :
  nth_error time_range i = Some t ->
  nth i (levels_of speed CONS_NAMES CONS_H CONS_G A0 time_range) 0%R = level_at speed t.
Proof.
  intros H. rewrite levels_of_level_at.
  apply nth_error_nth. apply map_nth_error, H.
Qed.

Lemma firstn_seq_le (k : nat) : forall s m : nat, (k <= m)%nat -> firstn k (seq s m) = seq s k.
Proof.
  induction k as [| k IH]; intros s m H; [reflexivity |].
  destruct m as [| m]; [lia |]. simpl. f_equal. apply IH. lia.
Qed.

Lemma firstn_range (n1 n2 : Z) :
  0 <= n1 <= n2 -> firstn (Z.to_nat n1) (range n2) = range n1.
Proof.
  intros H. unfold range. rewrite firstn_map, firstn_seq_le by lia. reflexivity.
Qed.

Lemma range_cons (n : Z) : 1 <= n -> exists tl, range n = 0 :: tl.
Proof.
  intros H. unfold range. destruct (Z.to_nat n) as [| m] eqn:E; [lia |].
  simpl. eexists. reflexivity.
Qed.

(** The entry of the forecast for the hour [i] after [now]. *)
Lemma get_forecast_entries (days now : Z) :
  0 <= days ->
  get_forecast speed isoformat date_range_negative days now
  = Ok {| forecast_period := Z.min days 30;
          forecast :=
            map (fun i =>
                   let t := Time.add (now_utc_at now) (i * Time.hours 1) in
                   {| ev_time_local := isoformat t; ev_level_cm := level_at speed t |})
                (range (Z.min days 30 * 24)) |}.
Proof.
  intros Hd. unfold get_forecast. rewrite forecast_clamp.
  rewrite date_range_ok by lia. cbn [bind]. do 2 f_equal.
  set (tr := map _ (range _)).
  rewrite (map_enumerate_from
             (fun i t_utc =>
                {| ev_time_local := isoformat (Time.astimezone VN_TIMEZONE t_utc);
                   ev_level_cm :=
                     nth i (levels_of speed CONS_NAMES CONS_H CONS_G A0 tr) 0%R |})
             (fun t =>
                {| ev_time_local := isoformat (Time.astimezone VN_TIMEZONE t);
                   ev_level_cm := level_at speed t |}) tr 0).
  - unfold tr. rewrite map_map. apply map_ext. intros i. cbv zeta.
    rewrite astimezone_vn_utc by reflexivity. reflexivity.
  - intros i t Hi. simpl. f_equal. apply nth_levels_of, Hi.
Qed.

End ForecastEntries.

(** X3: for one reading of the clock the endpoints agree: the first point of
    a forecast of one day or more, the first point of a forward chart and
    the last point of a backward chart all carry the level that the current
    level endpoint reports. *)
Theorem endpoints_agree_on_now :
  forall (speed : string -> R) (strftime : string -> Time.aware -> string)
         (isoformat : Time.aware -> string)
         (date_range_negative : py (list Time.aware)) (days now : Z),
    1 <= days ->
    exists cur fc,
      get_current_tide speed strftime now = Ok cur
      /\ get_forecast speed isoformat date_range_negative days now = Ok fc
      /\ option_map ev_level_cm (hd_error (forecast fc)) = Some (cur_level_cm cur)
      /\ hd_error (chart_values (get_tide_chart speed strftime days now))
         = Some (cur_level_cm cur)
      /\ last (chart_values (get_tide_chart speed strftime (- days) now)) 0%R
         = cur_level_cm cur.
Proof.
  intros speed strftime isoformat drn days now Hd.
  assert (Hnow : forall c : Z,
             level_at speed (Time.add (now_utc_at now) (Time.minutes (c * 0)))
             = level_at speed (now_utc_at now)).
  { intros c. apply level_at_instant.
    unfold Time.instant, Time.add, Time.minutes. simpl. lia. }
  assert (Hnow' : forall c : Z,
             level_at speed (Time.add (now_utc_at now) (- Time.minutes (c * 0)))
             = level_at speed (now_utc_at now)).
  { intros c. apply level_at_instant.
    unfold Time.instant, Time.add, Time.minutes. simpl. lia. }
  eexists. eexists.
  split; [unfold get_current_tide; rewrite calculate_level_at; reflexivity |].
  split; [apply get_forecast_entries; lia |].
  cbn [forecast cur_level_cm].
  split; [| split].
  - destruct (range_cons (Z.min days 30 * 24)) as [tl E]; [lia |].
    rewrite E. simpl. f_equal. apply level_at_instant.
    unfold Time.instant, Time.add, Time.hours. simpl. lia.
  - unfold get_tide_chart. cbn [chart_values]. rewrite levels_of_level_at.
    unfold chart_time_range.
    assert (E0 : (days <? 0) = false) by (apply Z.ltb_ge; lia). rewrite E0.
    destruct (range_cons (chart_num_points (chart_abs_days_of days))) as [tl E].
    { pose proof (chart_abs_days_bounds days).
      pose proof (chart_num_points_pos (chart_abs_days_of days)). lia. }
    rewrite E. simpl. f_equal. apply Hnow.
  - unfold get_tide_chart. cbn [chart_values]. rewrite levels_of_level_at.
    unfold chart_time_range.
    assert (E0 : (- days <? 0) = true) by (apply Z.ltb_lt; lia). rewrite E0.
    destruct (range_cons (chart_num_points (chart_abs_days_of (- days)))) as [tl E].
    { pose proof (chart_abs_days_bounds (- days)).
      pose proof (chart_num_points_pos (chart_abs_days_of (- days))). lia. }
    rewrite E. simpl. rewrite map_app. simpl. rewrite last_last. apply Hnow'.
Qed.

Lemma endpoints_agree_on_now_witness :
  exists cur fc,
    get_current_tide (fun _ => 0%R) (fun _ _ => EmptyString) 0 = Ok cur
    /\ get_forecast (fun _ => 0%R) (fun _ => EmptyString) (Raise ValueError) 1 0 = Ok fc
    /\ option_map ev_level_cm (hd_error (forecast fc)) = Some (cur_level_cm cur).
Proof.
  destruct (endpoints_agree_on_now (fun _ => 0%R) (fun _ _ => EmptyString)
              (fun _ => EmptyString) (Raise ValueError) 1 0) as [cur [fc H]]; [lia |].
  exists cur, fc. tauto.
Defined.

(** X4: the forecast for [days] is the list, hour by hour from the current
    instant, of the isoformat text and the level of each hour; a shorter
    forecast is the beginning of a longer one taken at the same instant, and
    any request for 30 days or more gets the answer of a request for 30. *)
Theorem forecast_extends_and_clamps :
  forall (speed : string -> R) (isoformat : Time.aware -> string)
         (date_range_negative : py (list Time.aware)) (d1 d2 now : Z),
    0 <= d1 <= d2 ->
    exists r1 r2,
      get_forecast speed isoformat date_range_negative d1 now = Ok r1
      /\ get_forecast speed isoformat date_range_negative d2 now = Ok r2
      /\ forecast r1
         = map (fun i =>
                  let t := Time.add (now_utc_at now) (i * Time.hours 1) in
                  {| ev_time_local := isoformat t; ev_level_cm := level_at speed t |})
               (range (Z.min d1 30 * 24))
      /\ forecast r1 = firstn (Z.to_nat (Z.min d1 30 * 24)) (forecast r2)
      /\ (30 <= d1 -> r1 = r2).
Proof.
  intros speed isoformat drn d1 d2 now H.
  eexists. eexists.
  split; [apply get_forecast_entries; lia |].
  split; [apply get_forecast_entries; lia |].
  cbn [forecast]. split; [reflexivity |]. split.
  - rewrite firstn_map, firstn_range by lia. reflexivity.
  - intros H30. rewrite !Z.min_r by lia. reflexivity.
Qed.

Lemma forecast_extends_and_clamps_witness :
  exists r1 r2,
    get_forecast (fun _ => 0%R) (fun _ => EmptyString) (Raise ValueError) 30 0 = Ok r1
    /\ get_forecast (fun _ => 0%R) (fun _ => EmptyString) (Raise ValueError) 365 0 = Ok r2
    /\ r1 = r2.
Proof.
  destruct (forecast_extends_and_clamps (fun _ => 0%R) (fun _ => EmptyString)
              (Raise ValueError) 30 365 0) as [r1 [r2 (H1 & H2 & _ & _ & H)]]; [lia |].
  exists r1, r2. split; [exact H1 |]. split; [exact H2 |]. apply H. lia.
Defined.

(** ** The points of the chart *)

Section ChartPoints.

Lemma chart_abs_days_formula (days : Z) :
  chart_abs_days_of days = Z.max 1 (Z.min 365 (Z.abs days)).
Proof.
  unfold chart_abs_days_of.
  destruct (Z.abs days <? 1) eqn:E1.
  - apply Z.ltb_lt in E1. simpl. lia.
  - apply Z.ltb_ge in E1. destruct (365 <? Z.abs days) eqn:E2.
    + apply Z.ltb_lt in E2. lia.
    + apply Z.ltb_ge in E2. lia.
Qed.

Lemma chart_num_points_tiers (a : Z) :
  chart_num_points a
  = if a <=? 10 then 96 * a else if a <=? 20 then 48 * a else 24 * a.
Proof.
  unfold chart_num_points, chart_interval_minutes.
  destruct (a <=? 10); [change (24 * 60 / 15) with 96; lia |].
  destruct (a <=? 20); [change (24 * 60 / 30) with 48; lia |].
  change (24 * 60 / 60) with 24. lia.
Qed.

Lemma chart_num_points_bounds (a : Z) :
  1 <= a <= 365 -> 96 <= chart_num_points a <= 8760.
Proof.
  intros H. rewrite chart_num_points_tiers.
  destruct (a <=? 10) eqn:E1; [apply Z.leb_le in E1; lia |].
  apply Z.leb_gt in E1.
  destruct (a <=? 20) eqn:E2; [apply Z.leb_le in E2 | apply Z.leb_gt in E2]; lia.
Qed.

Lemma nth_map_range {A : Type} (f : Z -> A) (n : Z) (i : nat) (d : A) :
  (i < Z.to_nat n)%nat -> nth i (map f (range n)) d = f (Z.of_nat i).
Proof.
  intros H. unfold range. rewrite map_map.
  rewrite (nth_indep _ d (f (Z.of_nat 0)))
    by (rewrite length_map, length_seq; exact H).
  rewrite (map_nth (fun k => f (Z.of_nat k))). rewrite seq_nth by exact H.
  reflexivity.
Qed.

Lemma chart_forward_sorted (days now : Z) :
  0 <= days -> StronglySorted Time.before (chart_time_range days now).
Proof.
  intros Hd. unfold chart_time_range.
  assert (E : (days <? 0) = false) by (apply Z.ltb_ge; exact Hd). rewrite E.
  unfold range. apply sorted_map_seq.
  intros i j Hij. unfold Time.before, Time.instant, Time.add, Time.minutes,
    Time.us_per_second. simpl.
  destruct (chart_interval_cases (chart_abs_days_of days)) as [C | [C | C]];
    rewrite C; lia.
Qed.

(** The instant of the point at position [i] of the chart. *)
Lemma chart_point_instant (days now : Z) (i : nat) (d : Time.aware) :
  let abs_days := chart_abs_days_of days in
  let n := chart_num_points abs_days in
  let step := Time.minutes (chart_interval_minutes abs_days) in
  (i < Z.to_nat n)%nat ->
  Time.instant (nth i (chart_time_range days now) d)
  = if days <? 0 then now - (n - 1 - Z.of_nat i) * step else now + Z.of_nat i * step.
Proof.
  intros abs_days n step Hi. unfold chart_time_range. fold abs_days. fold n.
  destruct (days <? 0).
  - rewrite rev_nth by (rewrite length_map, length_range; exact Hi).
    rewrite length_map, length_range.
    rewrite nth_map_range by lia.
    assert (E : Z.of_nat (Z.to_nat n - S i) = n - 1 - Z.of_nat i) by lia.
    rewrite E.
    unfold step, Time.instant, Time.add, Time.minutes, now_utc_at, Time.utc.
    cbn [Time.wall Time.utcoffset]. ring.
  - rewrite nth_map_range by exact Hi.
    unfold step, Time.instant, Time.add, Time.minutes, now_utc_at, Time.utc.
    cbn [Time.wall Time.utcoffset]. ring.
Qed.

End ChartPoints.

(** X5: the chart works with the number of days brought into 1..365 (0
    counts as 1), at 96 points a day up to 10 days, 48 up to 20 and 24
    beyond; it always draws between 96 and 8760 points, as many labels as
    values.  The request only matters to what is drawn, and to the days of
    the title and the direction, through its sign and that number of days,
    while the slider and the period box show the days as they were asked. *)
Theorem chart_point_count :
  forall (speed : string -> R) (strftime : string -> Time.aware -> string)
         (days now : Z),
    let abs_days := chart_abs_days_of days in
    let n := chart_num_points abs_days in
    let asked := get_tide_chart speed strftime days now in
    let clamped :=
      get_tide_chart speed strftime (if days <? 0 then - abs_days else abs_days) now in
    abs_days = Z.max 1 (Z.min 365 (Z.abs days))
    /\ n = (if abs_days <=? 10 then 96 * abs_days
            else if abs_days <=? 20 then 48 * abs_days else 24 * abs_days)
    /\ 96 <= n <= 8760
    /\ List.length (chart_labels asked) = Z.to_nat n
    /\ List.length (chart_values asked) = Z.to_nat n
    /\ chart_labels asked = chart_labels clamped
    /\ chart_values asked = chart_values clamped
    /\ chart_abs_days asked = chart_abs_days clamped
    /\ chart_is_past asked = chart_is_past clamped
    /\ chart_days asked = days.
Proof.
  intros speed strftime days now abs_days n asked clamped.
  pose proof (chart_abs_days_bounds days) as Hb. fold abs_days in Hb.
  split; [apply chart_abs_days_formula |].
  split; [apply chart_num_points_tiers |].
  split; [apply chart_num_points_bounds, Hb |].
  split; [unfold asked, get_tide_chart; cbn [chart_labels];
          rewrite length_map; apply chart_time_range_length |].
  split; [unfold asked, get_tide_chart; cbn [chart_values];
          rewrite levels_of_level_at, length_map; apply chart_time_range_length |].
  assert (Hidem : chart_abs_days_of (if days <? 0 then - abs_days else abs_days)
                  = abs_days).
  { rewrite chart_abs_days_formula. destruct (days <? 0); lia. }
  assert (Hsign : ((if days <? 0 then - abs_days else abs_days) <? 0) = (days <? 0)).
  { destruct (days <? 0); [apply Z.ltb_lt | apply Z.ltb_ge]; lia. }
  assert (Htr : chart_time_range days now
                = chart_time_range (if days <? 0 then - abs_days else abs_days) now).
  { unfold chart_time_range. rewrite Hidem, Hsign. reflexivity. }
  unfold asked, clamped, get_tide_chart.
  cbn [chart_labels chart_values chart_abs_days chart_is_past chart_days].
  rewrite <- Htr, Hidem, Hsign. repeat split; reflexivity.
Qed.

(** A request for 400 days draws what a request for 365 draws, and shows 400. *)
Example chart_400_days :
  chart_values (get_tide_chart (fun _ => 0%R) (fun _ _ => EmptyString) 400 0)
  = chart_values (get_tide_chart (fun _ => 0%R) (fun _ _ => EmptyString) 365 0)
  /\ chart_days (get_tide_chart (fun _ => 0%R) (fun _ _ => EmptyString) 400 0) = 400.
Proof.
  pose proof (chart_abs_days_formula 400) as E.
  split; [| reflexivity].
  unfold get_tide_chart, chart_time_range. cbn [chart_values]. rewrite E. reflexivity.
Qed.

(** X6: the points of a chart are handed on in chronological order in both
    directions, one cadence apart; the point at position [i] lies [i]
    cadences after the current instant in a forward chart and, in a backward
    chart of [n] points, [n - 1 - i] cadences before it, so that a backward
    chart ends at the current instant. *)
Theorem chart_points_evenly_spaced :
  forall (days now : Z),
    let abs_days := chart_abs_days_of days in
    let n := chart_num_points abs_days in
    let step := Time.minutes (chart_interval_minutes abs_days) in
    StronglySorted Time.before (chart_time_range days now)
    /\ (forall (i : nat) (d : Time.aware),
          (i < Z.to_nat n)%nat ->
          Time.instant (nth i (chart_time_range days now) d)
          = if days <? 0 then now - (n - 1 - Z.of_nat i) * step
            else now + Z.of_nat i * step)
    /\ (forall (i : nat) (d : Time.aware),
          (S i < Z.to_nat n)%nat ->
          Time.instant (nth (S i) (chart_time_range days now) d)
          - Time.instant (nth i (chart_time_range days now) d) = step).
Proof.
  intros days now abs_days n step. split; [| split].
  - destruct (Z.ltb_spec days 0) as [H | H].
    + apply chart_time_range_past_sorted, H.
    + apply chart_forward_sorted, H.
  - intros i d Hi. apply chart_point_instant, Hi.
  - intros i d Hi.
    rewrite !chart_point_instant by (fold abs_days; fold n; lia).
    fold abs_days. fold n. fold step. destruct (days <? 0); lia.
Qed.

Lemma chart_points_evenly_spaced_witness :
  Time.instant (nth 1 (chart_time_range (-1) 0) INITIAL_TIME)
  - Time.instant (nth 0 (chart_time_range (-1) 0) INITIAL_TIME)
  = Time.minutes (chart_interval_minutes (chart_abs_days_of (-1))).
Proof.
  apply (proj2 (proj2 (chart_points_evenly_spaced (-1) 0)) 0%nat INITIAL_TIME).
  vm_compute. lia.
Defined.

(** X7: a backward chart samples the mirror images, about the current
    instant, of the points of the forward chart of as many days. *)
Theorem chart_backward_mirrors_forward :
  forall (days now : Z),
    1 <= days ->
    chart_time_range (- days) now
    = rev (map (fun t => Time.add (now_utc_at now) (- (Time.instant t - now)))
               (chart_time_range days now)).
Proof.
  intros days now Hd. unfold chart_time_range.
  assert (E1 : (- days <? 0) = true) by (apply Z.ltb_lt; lia).
  assert (E2 : (days <? 0) = false) by (apply Z.ltb_ge; lia).
  assert (Ea : chart_abs_days_of (- days) = chart_abs_days_of days)
    by (rewrite !chart_abs_days_formula, Z.abs_opp; reflexivity).
  rewrite E1, E2, Ea. f_equal. rewrite map_map. apply map_ext. intros i.
  unfold Time.add, Time.instant, now_utc_at, Time.utc. simpl. f_equal. lia.
Qed.

Lemma chart_backward_mirrors_forward_witness :
  chart_time_range (- 1) 0
  = rev (map (fun t => Time.add (now_utc_at 0) (- (Time.instant t - 0)))
             (chart_time_range 1 0)).
Proof.
  apply (chart_backward_mirrors_forward 1 0). lia.
Defined.

(** X8: the index of the service announces the chart as going up to 10
    days, yet a request for more than 10 and at most 365 days, forward or
    backward, is served in full, at 48 points a day up to 20 days and 24
    beyond. *)
Theorem chart_serves_up_to_365_days :
  forall (days now : Z),
    10 < days <= 365 ->
    In ("/tide/chart?days=N"%string,
        "Biểu đồ dự báo N ngày (mặc định 3, max 10)"%string) read_root_endpoints
    /\ chart_abs_days_of days = days
    /\ chart_abs_days_of (- days) = days
    /\ List.length (chart_time_range days now)
       = Z.to_nat (days * (if days <=? 20 then 48 else 24))
    /\ List.length (chart_time_range (- days) now)
       = Z.to_nat (days * (if days <=? 20 then 48 else 24)).
Proof.
  intros days now Hd.
  assert (E1 : chart_abs_days_of days = days) by (rewrite chart_abs_days_formula; lia).
  assert (E2 : chart_abs_days_of (- days) = days)
    by (rewrite chart_abs_days_formula; lia).
  assert (En : chart_num_points days = days * (if days <=? 20 then 48 else 24)).
  { rewrite chart_num_points_tiers.
    destruct (days <=? 10) eqn:E; [apply Z.leb_le in E; lia |].
    destruct (days <=? 20); lia. }
  split; [simpl; auto 6 |]. split; [exact E1 |]. split; [exact E2 |].
  rewrite !chart_time_range_length, E1, E2, En. auto.
Qed.

Lemma chart_serves_up_to_365_days_witness :
  List.length (chart_time_range 11 0) = Z.to_nat (11 * 48).
Proof.
  apply (chart_serves_up_to_365_days 11 0). lia.
Defined.

(** ** The statistics and the rows of the validation *)

Section ValidationReport.

Local Open Scope R_scope.

Lemma abs_sum_le (l : list R) : Rabs (Np.sum l) <= Np.sum (map Rabs l).
Proof.
  induction l as [| x l IH]; simpl; [rewrite Rabs_R0; lra |].
  eapply Rle_trans; [apply Rabs_triang | lra].
Qed.

Lemma square_abs (x : R) : x * x = Rabs x * Rabs x.
Proof. unfold Rabs. destruct (Rcase_abs x); ring. Qed.

Lemma sum_squares_shift (m : R) (l : list R) :
  0 <= Np.sum (map (fun e => e * e) l) - 2 * m * Np.sum (map Rabs l)
       + INR (List.length l) * (m * m).
Proof.
  induction l as [| x l IH]; [simpl; lra |].
  cbn [map Np.sum fold_right List.length]. fold (Np.sum (map (fun e => e * e) l)).
  fold (Np.sum (map Rabs l)). rewrite S_INR, (square_abs x).
  pose proof (pow2_ge_0 (Rabs x - m)). nra.
Qed.

Lemma sum_squares_le (M : R) (l : list R) :
  (forall e, In e l -> Rabs e <= M) ->
  Np.sum (map (fun e => e * e) l) <= INR (List.length l) * (M * M).
Proof.
  induction l as [| x l IH]; intros H; [simpl; lra |].
  cbn [map Np.sum fold_right List.length]. fold (Np.sum (map (fun e => e * e) l)).
  rewrite S_INR, (square_abs x).
  assert (Hx : Rabs x <= M) by (apply H; simpl; auto).
  assert (Hl : Np.sum (map (fun e => e * e) l) <= INR (List.length l) * (M * M))
    by (apply IH; intros e He; apply H; simpl; auto).
  pose proof (Rabs_pos x). nra.
Qed.

(** What a successful [statistics_of] has computed. *)
Lemma statistics_of_inv (errors : list R) (st : statistics) :
  statistics_of errors = Ok st ->
  (0 < List.length errors)%nat
  /\ mean_error_cm st = Np.sum errors / INR (List.length errors)
  /\ mae_cm st = Np.sum (map Rabs errors) / INR (List.length errors)
  /\ rmse_cm st = sqrt (Np.sum (map (fun e => e * e) errors) / INR (List.length errors))
  /\ In (max_error_cm st) (map Rabs errors)
  /\ (forall e, In e errors -> Rabs e <= max_error_cm st).
Proof.
  unfold statistics_of. intros H.
  destruct (Np.max (map Rabs errors)) as [mx | ex] eqn:E; [| discriminate].
  cbn [bind] in H. injection H as <-. cbn [mean_error_cm mae_cm rmse_cm max_error_cm].
  apply np_max_spec in E as [Hin Hle].
  split; [destruct errors; [contradiction | simpl; lia] |].
  unfold Np.mean. rewrite !length_map.
  repeat (split; [reflexivity |]).
  split; [exact Hin |]. intros e He. apply Hle, in_map, He.
Qed.

Lemma statistics_chain (errors : list R) (st : statistics) :
  statistics_of errors = Ok st ->
  Rabs (mean_error_cm st) <= mae_cm st
  /\ mae_cm st <= rmse_cm st
  /\ rmse_cm st <= max_error_cm st.
Proof.
  intros H.
  destruct (statistics_of_inv errors st H) as (Hn & Hm & Ha & Hr & Hin & Hle).
  apply lt_0_INR in Hn.
  set (n := INR (List.length errors)) in *.
  set (SA := Np.sum (map Rabs errors)) in *.
  set (SQ := Np.sum (map (fun e => e * e) errors)) in *.
  assert (Hinv : 0 < / n) by (apply Rinv_0_lt_compat; exact Hn).
  assert (HSA : 0 <= SA) by apply sum_abs_nonneg.
  rewrite Hm, Ha, Hr. split; [| split].
  - unfold Rdiv. rewrite Rabs_mult, (Rabs_pos_eq (/ n)) by lra.
    apply Rmult_le_compat_r; [lra | apply abs_sum_le].
  - assert (Hmm : (SA / n) * (SA / n) <= SQ / n).
    { pose proof (sum_squares_shift (SA / n) errors) as Hs.
      fold n in Hs. fold SA in Hs. fold SQ in Hs.
      assert (En : n * (SA / n) = SA) by (field; lra).
      apply (Rmult_le_reg_l n); [exact Hn |].
      replace (n * (SQ / n)) with SQ by (field; lra). nra. }
    assert (H0 : 0 <= SA / n) by (unfold Rdiv; nra).
    rewrite <- (sqrt_square (SA / n)) at 1 by exact H0.
    apply sqrt_le_1_alt, Hmm.
  - assert (Hmx : 0 <= max_error_cm st).
    { apply in_map_iff in Hin as [e [<- _]]. apply Rabs_pos. }
    pose proof (sum_squares_le (max_error_cm st) errors Hle) as Hs.
    fold n in Hs. fold SQ in Hs.
    rewrite <- (sqrt_square (max_error_cm st)) by exact Hmx.
    apply sqrt_le_1_alt.
    apply (Rmult_le_reg_l n); [exact Hn |].
    replace (n * (SQ / n)) with SQ by (field; lra). lra.
Qed.

Lemma statistics_of_nonempty (errors : list R) :
  errors <> [] -> exists st, statistics_of errors = Ok st.
Proof.
  intros H. unfold statistics_of. destruct errors as [| e l]; [congruence |].
  simpl. eexists. reflexivity.
Qed.

Lemma index_inv {A : Type} (a : list A) (i : nat) (v d : A) :
  Np.index a i = Ok v -> (i < List.length a)%nat /\ nth i a d = v.
Proof.
  unfold Np.index. destruct (nth_error a i) as [x |] eqn:E; [| discriminate].
  intros H. injection H as <-. split.
  - apply nth_error_Some. congruence.
  - apply nth_error_nth, E.
Qed.

Lemma for_each_inv {A B : Type} (f : A -> py B) (g : A -> B) (xs : list A) :
  forall ys,
    (forall x y, In x xs -> f x = Ok y -> y = g x) ->
    for_each f xs = Ok ys ->
    ys = map g xs /\ forall x, In x xs -> exists y, f x = Ok y.
Proof.
  induction xs as [| x tl IH]; intros ys Hg H; simpl in H.
  - injection H as <-. split; [reflexivity | intros x []].
  - destruct (f x) as [y | e] eqn:Ey; [| discriminate]. cbn [bind] in H.
    destruct (for_each f tl) as [ys' | e] eqn:Et; [| discriminate].
    cbn [bind] in H. injection H as <-.
    destruct (IH ys') as [E Hall]; [intros z w Hz; apply Hg; simpl; auto | reflexivity |].
    split.
    + simpl. f_equal; [apply Hg; simpl; auto | exact E].
    + intros z [<- | Hz]; [eauto | apply Hall, Hz].
Qed.

Lemma errors_nth (predicted : list R) :
  forall (actual : list Z) (i : nat),
    List.length predicted = List.length actual ->
    (i < List.length actual)%nat ->
    nth i (map (fun '(p, o) => p - IZR o) (combine predicted actual)) 0
    = nth i predicted 0 - IZR (nth i actual 0%Z).
Proof.
  induction predicted as [| p ps IH]; intros [| a acts] i Hlen Hi; simpl in *;
    try discriminate; try lia.
  destruct i as [| i]; [reflexivity |].
  apply IH; [congruence | lia].
Qed.

(** What a successful [validate_from] has computed. *)
Lemma validate_from_inv (actual : list Z) (predicted : list R) (report : validation) :
  validate_from actual predicted = Ok report ->
  List.length predicted = List.length actual
  /\ (24 <= List.length actual)%nat
  /\ statistics_of (map (fun '(p, o) => p - IZR o) (combine predicted actual))
     = Ok (validation_statistics report)
  /\ comparison report
     = map (fun i =>
              {| hour := hour_label i;
                 actual_cm := nth i actual 0%Z;
                 predicted_cm := nth i predicted 0;
                 error_cm := nth i predicted 0 - IZR (nth i actual 0%Z) |})
           (seq 0 24).
Proof.
  intros H.
  assert (Hlen : List.length predicted = List.length actual).
  { destruct (Nat.eq_dec (List.length predicted) (List.length actual)) as [E | E];
      [exact E |].
    destruct (validate_from_mismatch actual predicted E) as [F | F];
      rewrite F in H; discriminate. }
  split; [exact Hlen |].
  unfold validate_from in H. rewrite errors_of_same in H by exact Hlen.
  cbn [bind] in H.
  set (errors := map _ (combine predicted actual)) in *.
  match type of H with
  | context [for_each ?f (seq 0 24)] =>
      destruct (for_each f (seq 0 24)) as [rows | e] eqn:Er; [| discriminate]
  end.
  cbn [bind] in H.
  destruct (statistics_of errors) as [st | e] eqn:Es; [| discriminate].
  cbn [bind] in H. injection H as <-. cbn [validation_statistics comparison].
  apply for_each_inv with
    (g := fun i =>
            {| hour := hour_label i;
               actual_cm := nth i actual 0%Z;
               predicted_cm := nth i predicted 0;
               error_cm := nth i predicted 0 - IZR (nth i actual 0%Z) |}) in Er.
  - destruct Er as [Erows Hall]. split; [| split; [reflexivity | exact Erows]].
    destruct (Hall 23%nat) as [y Hy]; [apply in_seq; lia |].
    destruct (Np.index actual 23) as [a |] eqn:Ea; [| discriminate].
    apply (index_inv _ _ _ 0%Z) in Ea. lia.
  - intros i y _ Hy.
    destruct (Np.index actual i) as [a |] eqn:Ea; [| discriminate].
    destruct (Np.index predicted i) as [p |] eqn:Ep; [| discriminate].
    destruct (Np.index errors i) as [e |] eqn:Ee; [| discriminate].
    cbn [bind] in Hy. injection Hy as <-.
    apply (index_inv _ _ _ 0%Z) in Ea as [Hi <-].
    apply (index_inv _ _ _ 0) in Ep as [_ <-].
    apply (index_inv _ _ _ 0) in Ee as [_ <-].
    unfold errors. rewrite errors_nth by assumption. reflexivity.
Qed.

Lemma errors_all_zero (predicted : list R) :
  forall actual : list Z,
    List.length predicted = List.length actual ->
    ((forall e, In e (map (fun '(p, o) => p - IZR o) (combine predicted actual)) -> e = 0)
     <-> predicted = map IZR actual).
Proof.
  induction predicted as [| p ps IH]; intros [| a acts] Hlen; simpl in *;
    try discriminate.
  - split; [reflexivity | intros _ e []].
  - injection Hlen as Hlen. specialize (IH acts Hlen). split.
    + intros H. f_equal.
      * specialize (H (p - IZR a) (or_introl eq_refl)). lra.
      * apply IH. intros e He. apply H. auto.
    + intros H. injection H as -> ->. intros e [<- | He]; [lra |].
      apply IH in He; auto.
Qed.

End ValidationReport.

(** X9: whenever the statistics are defined, that is for at least one
    error, the absolute mean error is at most the mean absolute error, which
    is at most the root mean square error, which is at most the maximum
    error. *)
Theorem statistics_ordered :
  forall errors : list R,
    errors <> [] ->
    exists st,
      statistics_of errors = Ok st
      /\ (0 <= Rabs (mean_error_cm st) <= mae_cm st)%R
      /\ (mae_cm st <= rmse_cm st)%R
      /\ (rmse_cm st <= max_error_cm st)%R.
Proof.
  intros errors Hne.
  destruct (statistics_of_nonempty errors Hne) as [st Hst].
  destruct (statistics_chain errors st Hst) as (H1 & H2 & H3).
  exists st. split; [exact Hst |].
  split; [split; [apply Rabs_pos | exact H1] | split; assumption].
Qed.

Lemma statistics_ordered_witness :
  exists st,
    statistics_of [2; -3; 4]%R = Ok st
    /\ (mae_cm st <= rmse_cm st)%R
    /\ (rmse_cm st <= max_error_cm st)%R.
Proof.
  destruct (statistics_ordered [2; -3; 4]%R) as [st H]; [discriminate |].
  exists st. tauto.
Defined.

(** X10: a report that comes back has exactly one row for each of the hours
    0 to 23, in order; row [i] is labelled with the hour in two digits and
    carries the observation and the prediction of index [i] and, as error,
    the prediction minus the observation; this requires as many predictions
    as observations and at least 24 of them. *)
Theorem validation_rows :
  forall (actual : list Z) (predicted : list R) (report : validation),
    validate_from actual predicted = Ok report ->
    List.length predicted = List.length actual
    /\ (24 <= List.length actual)%nat
    /\ comparison report
       = map (fun i =>
                {| hour := hour_label i;
                   actual_cm := nth i actual 0;
                   predicted_cm := nth i predicted 0%R;
                   error_cm := (nth i predicted 0 - IZR (nth i actual 0%Z))%R |})
             (seq 0 24)
    /\ (forall row, In row (comparison report) ->
          error_cm row = (predicted_cm row - IZR (actual_cm row))%R).
Proof.
  intros actual predicted report H.
  destruct (validate_from_inv actual predicted report H) as (Hl & Hn & _ & Hr).
  split; [exact Hl |]. split; [exact Hn |]. split; [exact Hr |].
  intros row Hin. rewrite Hr in Hin. apply in_map_iff in Hin as [i [<- _]].
  reflexivity.
Qed.

Lemma validation_rows_witness :
  exists report,
    validate_from actual_data (map IZR actual_data) = Ok report
    /\ forall row, In row (comparison report) ->
         error_cm row = (predicted_cm row - IZR (actual_cm row))%R.
Proof.
  destruct (validate_from_ok actual_data (map IZR actual_data)) as [report [H _]];
    [reflexivity | simpl; lia |].
  exists report. split; [exact H |].
  apply (validation_rows actual_data (map IZR actual_data) report H).
Defined.

(** X11: in a report that comes back, the maximum error is zero exactly
    when every prediction equals its observation, and then the mean error,
    the mean absolute error and the root mean square error are zero too. *)
Theorem validation_perfect_prediction :
  forall (actual : list Z) (predicted : list R) (report : validation),
    validate_from actual predicted = Ok report ->
    let st := validation_statistics report in
    (max_error_cm st = 0%R <-> predicted = map IZR actual)
    /\ (max_error_cm st = 0%R ->
        mean_error_cm st = 0%R /\ mae_cm st = 0%R /\ rmse_cm st = 0%R).
Proof.
  intros actual predicted report H st.
  destruct (validate_from_inv actual predicted report H) as (Hl & _ & Hs & _).
  fold st in Hs.
  destruct (statistics_of_inv _ st Hs) as (_ & _ & _ & _ & Hin & Hle).
  destruct (statistics_chain _ st Hs) as (H1 & H2 & H3).
  split.
  - rewrite <- (errors_all_zero predicted actual Hl). split.
    + intros E e He. specialize (Hle e He). rewrite E in Hle.
      pose proof (Rabs_pos e).
      destruct (Req_dec e 0) as [E0 | E0]; [exact E0 |].
      apply Rabs_pos_lt in E0. lra.
    + intros Hz. apply in_map_iff in Hin as [e [<- He]].
      rewrite (Hz e He). apply Rabs_R0.
  - intros E. rewrite E in H3.
    pose proof (Rabs_pos (mean_error_cm st)).
    assert (Hm : Rabs (mean_error_cm st) = 0%R) by lra.
    split; [| split; lra].
    destruct (Req_dec (mean_error_cm st) 0) as [E0 | E0]; [exact E0 |].
    apply Rabs_pos_lt in E0. lra.
Qed.

Lemma validation_perfect_prediction_witness :
  exists report,
    validate_from actual_data (map IZR actual_data) = Ok report
    /\ max_error_cm (validation_statistics report) = 0%R.
Proof.
  destruct (validate_from_ok actual_data (map IZR actual_data)) as [report [H _]];
    [reflexivity | simpl; lia |].
  exists report. split; [exact H |].
  apply (proj1 (validation_perfect_prediction actual_data (map IZR actual_data)
                  report H)).
  reflexivity.
Defined.

(** ** The day scanned for extremes *)

Section DailyExtremes.

Variable speed : string -> R.
Variable strftime : string -> Time.aware -> string.
Variable date_range_negative : py (list Time.aware).

Lemma start_of_day_window (now : Z) :
  let start := start_of_day (now_utc_at now) in
  Time.instant start <= now < Time.instant start + Time.hours 24
  /\ Time.date_of (Time.astimezone VN_TIMEZONE start) = Time.date_of (now_utc_at now).
Proof.
  unfold start_of_day, now_utc_at, Time.instant, Time.date_of, Time.hours,
    Time.us_per_second, Time.utc.
  cbn [Time.wall Time.utcoffset].
  rewrite astimezone_vn_utc by reflexivity. cbn [Time.wall].
  change (86400 * 1000000) with 86400000000.
  pose proof (Z.div_mod now 86400000000) as Hdm.
  pose proof (Z.mod_pos_bound now 86400000000) as Hmod.
  split; [lia |]. rewrite Z.div_mul by lia. reflexivity.
Qed.

Lemma peak_events_entries (time_range : list Time.aware) (levels : list Z)
  (peaks : list nat) (ev : tide_event) :
  In ev (peak_events strftime time_range levels peaks) ->
  exists idx,
    In idx peaks /\ (idx < List.length time_range)%nat
    /\ ev = {| ev_time_local :=
                 strftime "%Y-%m-%d %H:%M:%S"%string
                   (Time.astimezone VN_TIMEZONE (nth idx time_range INITIAL_TIME));
               ev_level_cm := (IZR (nth idx levels 0%Z) / 100)%R |}.
Proof.
  unfold peak_events. intros H. apply in_flat_map in H as [idx [Hp H]].
  destruct (idx <? List.length time_range)%nat eqn:E; [| contradiction].
  apply Nat.ltb_lt in E. destruct H as [<- | []]. exists idx. auto.
Qed.

Lemma peak_events_length (time_range : list Time.aware) (levels : list Z)
  (peaks : list nat) :
  (List.length (peak_events strftime time_range levels peaks) <= List.length peaks)%nat.
Proof.
  unfold peak_events. induction peaks as [| idx peaks IH]; simpl; [lia |].
  rewrite length_app. destruct (idx <? List.length time_range)%nat; simpl; lia.
Qed.

Lemma nth_levels_centi (time_range : list Time.aware) (i : nat) (t : Time.aware) :
  nth_error time_range i = Some t ->
  (IZR (nth i (levels_centi speed CONS_NAMES CONS_H CONS_G A0 time_range) 0%Z) / 100)%R
  = level_at speed t.
Proof.
  intros H. unfold levels_centi.
  erewrite nth_error_nth; [| apply map_nth_error, H]. reflexivity.
Qed.

Lemma spaced_count (d hi : nat) (l : list nat) :
  forall lo : nat,
    StronglySorted lt l -> Peaks.separated d l ->
    (forall x, In x l -> lo <= x <= hi)%nat ->
    l <> [] ->
    (lo + (List.length l - 1) * d <= hi)%nat.
Proof.
  induction l as [| a l IH]; intros lo Hs Hsep Hb Hne; [congruence |].
  destruct l as [| b t].
  - simpl. specialize (Hb a (or_introl eq_refl)). lia.
  - inversion Hs as [| ? ? Hs' Ha]; subst. rewrite Forall_forall in Ha.
    assert (Hstep : (lo + d + (List.length (b :: t) - 1) * d <= hi)%nat).
    { apply IH.
      - exact Hs'.
      - intros x y Hx Hy Hxy. apply Hsep; simpl; auto.
      - intros x Hx. split; [| apply Hb; simpl; auto].
        specialize (Ha x Hx).
        assert (Hd : (d <= Peaks.dist a x)%nat)
          by (apply Hsep; simpl; auto; lia).
        unfold Peaks.dist in Hd. specialize (Hb a (or_introl eq_refl)). lia.
      - discriminate. }
    simpl in *. lia.
Qed.

Lemma find_peaks_count (x : list Z) (d : nat) :
  Peaks.find_peaks x d <> [] ->
  (3 + (List.length (Peaks.find_peaks x d) - 1) * d <= List.length x)%nat.
Proof.
  intros Hne.
  pose proof (spaced_count d (List.length x - 2) (Peaks.find_peaks x d) 1) as H.
  assert (Hb : forall j, In j (Peaks.find_peaks x d) ->
                         (1 <= j <= List.length x - 2)%nat).
  { intros j Hj. apply find_peaks_In in Hj as [Hj _].
    apply local_maxima_bounds in Hj. lia. }
  specialize (H (filter_increasing _ _ (local_maxima_increasing x))
                (find_peaks_separated x d) Hb Hne).
  destruct (Peaks.find_peaks x d) as [| j l] eqn:E; [congruence |].
  specialize (Hb j (or_introl eq_refl)). lia.
Qed.

Lemma daily_peaks_count (levels : list Z) :
  List.length levels = 288%nat ->
  (List.length (fst (daily_peaks levels)) <= 5
   /\ List.length (snd (daily_peaks levels)) <= 5)%nat.
Proof.
  intros Hl. unfold daily_peaks. cbn [fst snd]. split.
  - destruct (Peaks.find_peaks levels 60) as [| j l] eqn:E; [simpl; lia |].
    assert (Hne : Peaks.find_peaks levels 60 <> []) by (rewrite E; discriminate).
    apply find_peaks_count in Hne. rewrite E, Hl in Hne. simpl in *. lia.
  - destruct (Peaks.find_peaks (map Z.opp levels) 60) as [| j l] eqn:E; [simpl; lia |].
    assert (Hne : Peaks.find_peaks (map Z.opp levels) 60 <> [])
      by (rewrite E; discriminate).
    apply find_peaks_count in Hne. rewrite E, length_map, Hl in Hne. simpl in *. lia.
Qed.

Lemma get_daily_extremes_unfold (now : Z) :
  let start := start_of_day (now_utc_at now) in
  let time_range := map (fun i => Time.add start (i * Time.minutes 5)) (range 288) in
  let levels := levels_centi speed CONS_NAMES CONS_H CONS_G A0 time_range in
  get_daily_extremes speed strftime date_range_negative now
  = Ok {| date_local := Time.date_of (Time.astimezone VN_TIMEZONE start);
          high_tides := peak_events strftime time_range levels (fst (daily_peaks levels));
          low_tides := peak_events strftime time_range levels (snd (daily_peaks levels)) |}.
Proof.
  cbv zeta. unfold get_daily_extremes. rewrite date_range_ok by lia.
  cbn [bind]. unfold daily_peaks. cbn [fst snd]. cbv beta iota. reflexivity.
Qed.

End DailyExtremes.

(** X12: the daily extremes never fail.  The day scanned is the UTC calendar
    day of the current instant, which is also the date reported; every
    event reported carries the text of one of the 288 five minute marks of
    that day and, as its level, the level synthesized for that very mark. *)
Theorem daily_extremes_day_and_levels :
  forall (speed : string -> R) (strftime : string -> Time.aware -> string)
         (date_range_negative : py (list Time.aware)) (now : Z),
    let start := start_of_day (now_utc_at now) in
    exists resp,
      get_daily_extremes speed strftime date_range_negative now = Ok resp
      /\ date_local resp = Time.date_of (now_utc_at now)
      /\ Time.instant start <= now < Time.instant start + Time.hours 24
      /\ forall ev, In ev (high_tides resp ++ low_tides resp) ->
           exists i,
             0 <= i < 288
             /\ Time.instant start <= Time.instant (Time.add start (i * Time.minutes 5))
                < Time.instant start + Time.hours 24
             /\ ev_time_local ev
                = strftime "%Y-%m-%d %H:%M:%S"%string (Time.add start (i * Time.minutes 5))
             /\ ev_level_cm ev = level_at speed (Time.add start (i * Time.minutes 5)).
Proof.
  intros speed strftime drn now start.
  destruct (start_of_day_window now) as [Hw Hd]. fold start in Hw, Hd.
  eexists. split; [apply get_daily_extremes_unfold |].
  cbn [date_local high_tides low_tides]. fold start.
  split; [exact Hd |]. split; [exact Hw |].
  set (tr := map (fun i => Time.add start (i * Time.minutes 5)) (range 288)).
  intros ev Hev.
  assert (He : exists idx,
             (idx < List.length tr)%nat
             /\ ev = {| ev_time_local :=
                          strftime "%Y-%m-%d %H:%M:%S"%string
                            (Time.astimezone VN_TIMEZONE (nth idx tr INITIAL_TIME));
                        ev_level_cm :=
                          (IZR (nth idx (levels_centi speed CONS_NAMES CONS_H CONS_G
                                           A0 tr) 0%Z) / 100)%R |}).
  { apply in_app_or in Hev as [Hev | Hev];
      apply peak_events_entries in Hev as [idx [_ [Hi E]]]; exists idx; auto. }
  destruct He as [idx [Hi ->]].
  unfold tr in Hi. rewrite length_map, length_range in Hi.
  assert (Hn : nth idx tr INITIAL_TIME
               = Time.add start (Z.of_nat idx * Time.minutes 5))
    by (unfold tr; apply nth_map_range; exact Hi).
  assert (Hne : nth_error tr idx
                = Some (Time.add start (Z.of_nat idx * Time.minutes 5))).
  { rewrite <- Hn. apply nth_error_nth'. unfold tr.
    rewrite length_map, length_range. exact Hi. }
  exists (Z.of_nat idx). split; [lia |]. split.
  - unfold Time.instant, Time.add, Time.minutes, Time.hours, Time.us_per_second.
    cbn [Time.wall Time.utcoffset]. lia.
  - cbn [ev_time_local ev_level_cm]. split.
    + rewrite Hn, astimezone_vn_utc by reflexivity. reflexivity.
    + apply nth_levels_centi, Hne.
Qed.

(** X13: under the detector as modelled, a series of [n] samples with a
    window of [d] holds at most [1 + (n - 3) / d] events of a kind, since
    they lie strictly inside the series and [d] apart; for the 288 samples
    and the window of 60 of the daily extremes this is at most five high
    tides and five low tides a day. *)
Theorem daily_extremes_at_most_five :
  (forall (levels : list Z) (d : nat),
      Peaks.find_peaks levels d <> [] ->
      (3 + (List.length (Peaks.find_peaks levels d) - 1) * d <= List.length levels)%nat)
  /\ (forall (speed : string -> R) (strftime : string -> Time.aware -> string)
             (date_range_negative : py (list Time.aware)) (now : Z),
        exists resp,
          get_daily_extremes speed strftime date_range_negative now = Ok resp
          /\ (List.length (high_tides resp) <= 5)%nat
          /\ (List.length (low_tides resp) <= 5)%nat).
Proof.
  split; [apply find_peaks_count |].
  intros speed strftime drn now.
  eexists. split; [apply get_daily_extremes_unfold |].
  cbn [high_tides low_tides].
  set (tr := map _ (range 288)).
  destruct (daily_peaks_count (levels_centi speed CONS_NAMES CONS_H CONS_G A0 tr))
    as [Hh Hl].
  { unfold levels_centi, tr. rewrite !length_map, length_range. reflexivity. }
  split; (eapply Nat.le_trans; [apply peak_events_length | assumption]).
Qed.

Lemma daily_extremes_at_most_five_witness :
  (3 + (List.length (Peaks.find_peaks [0; 3; 0; 5; 0]%Z 2) - 1) * 2
   <= List.length [0; 3; 0; 5; 0]%Z)%nat.
Proof.
  apply (proj1 daily_extremes_at_most_five [0; 3; 0; 5; 0] 2%nat).
  vm_compute. discriminate.
Defined.

(** ** Phases, and the endpoints against each other *)

Section Phases.

Local Open Scope R_scope.

Lemma cos_full_turn (x g : R) : cos (x - (g + 360) * PI / 180) = cos (x - g * PI / 180).
Proof.
  replace (x - (g + 360) * PI / 180) with ((x - g * PI / 180) - 2 * PI) by field.
  rewrite cos_minus, cos_2PI, sin_2PI. ring.
Qed.

Lemma eta_full_turns (speed : string -> R) (t : R) (names : list string) :
  forall hs gs gs' : list R,
    Forall2 (fun g g' => g' = g \/ g' = g + 360) gs gs' ->
    eta_of speed names hs gs' t = eta_of speed names hs gs t.
Proof.
  intros hs gs gs' H. unfold eta_of, tide_model_of, amplitudes_of, phases_of.
  rewrite !from_amplitude_phase_terms.
  revert hs gs gs' H. induction names as [| n names IH]; intros hs gs gs' H;
    [reflexivity |].
  destruct hs as [| h hs]; [reflexivity |].
  destruct H as [| g g' gs gs' Hg H]; [reflexivity |].
  simpl. rewrite (IH hs gs gs' H).
  destruct Hg as [-> | ->]; [reflexivity | rewrite cos_full_turn; reflexivity].
Qed.

End Phases.

(** X14: a phase counts modulo 360 degrees only: adding a full turn to any
    of the configured phases changes no level, and the phase 365.01 that the
    module configures for Q1 acts as 5.01. *)
Theorem phases_count_modulo_360 :
  forall (speed : string -> R),
    (forall (names : list string) (hs gs gs' : list R) (a0 : R)
            (target : Time.datetime),
        Forall2 (fun g g' => g' = g \/ g' = (g + 360)%R) gs gs' ->
        calculate_tide speed names hs gs' a0 target
        = calculate_tide speed names hs gs a0 target)
    /\ (forall target : Time.datetime,
          calculate_tide_uptide speed target
          = calculate_tide speed CONS_NAMES CONS_H
              [47.24; 105.85; 79.71; 41.55; 210.36; 286.71; 180.83; 51.48; 60.38;
               84.07; 5.01; 196.26; 97.56]%R A0 target).
Proof.
  intros speed.
  assert (G : forall names hs gs gs' a0 target,
             Forall2 (fun g g' => g' = g \/ g' = (g + 360)%R) gs gs' ->
             calculate_tide speed names hs gs' a0 target
             = calculate_tide speed names hs gs a0 target).
  { intros names hs gs gs' a0 target H. unfold calculate_tide.
    destruct (Time.sub target (Time.Aware INITIAL_TIME)) as [d | e]; [| reflexivity].
    cbn [bind]. rewrite (eta_full_turns speed _ names hs gs gs' H). reflexivity. }
  split; [exact G |].
  intros target. unfold calculate_tide_uptide. apply G. unfold CONS_G.
  repeat (constructor; [first [left; reflexivity | right; lra] |]). constructor.
Qed.

Lemma phases_count_modulo_360_witness :
  calculate_tide (fun _ => 1%R) ["M2"%string] [1%R] [(0 + 360)%R] 0%R
    (Time.Aware INITIAL_TIME)
  = calculate_tide (fun _ => 1%R) ["M2"%string] [1%R] [0%R] 0%R (Time.Aware INITIAL_TIME).
Proof.
  apply (proj1 (phases_count_modulo_360 (fun _ => 1%R))).
  constructor; [right; reflexivity | constructor].
Defined.

(** X15: from 21 days on the forward chart is hourly like the forecast, and
    for one reading of the clock the levels of the forecast are the first
    levels of the chart: all of them up to 30 days, the first 720 beyond. *)
Theorem forecast_levels_on_chart :
  forall (speed : string -> R) (strftime : string -> Time.aware -> string)
         (isoformat : Time.aware -> string)
         (date_range_negative : py (list Time.aware)) (days now : Z),
    21 <= days <= 365 ->
    exists fc,
      get_forecast speed isoformat date_range_negative days now = Ok fc
      /\ map ev_level_cm (forecast fc)
         = firstn (Z.to_nat (Z.min days 30 * 24))
             (chart_values (get_tide_chart speed strftime days now))
      /\ (days <= 30 ->
          map ev_level_cm (forecast fc)
          = chart_values (get_tide_chart speed strftime days now)).
Proof.
  intros speed strftime isoformat drn days now Hd.
  assert (Ea : chart_abs_days_of days = days) by (rewrite chart_abs_days_formula; lia).
  assert (Ec : chart_interval_minutes days = 60).
  { unfold chart_interval_minutes.
    destruct (days <=? 10) eqn:E1; [apply Z.leb_le in E1; lia |].
    destruct (days <=? 20) eqn:E2; [apply Z.leb_le in E2; lia | reflexivity]. }
  assert (En : chart_num_points days = days * 24).
  { unfold chart_num_points. rewrite Ec. change (24 * 60 / 60) with 24. reflexivity. }
  assert (Ev : chart_values (get_tide_chart speed strftime days now)
               = map (fun i => level_at speed
                                 (Time.add (now_utc_at now) (i * Time.hours 1)))
                     (range (days * 24))).
  { unfold get_tide_chart. cbn [chart_values]. rewrite levels_of_level_at.
    unfold chart_time_range. rewrite Ea, Ec, En.
    assert (E0 : (days <? 0) = false) by (apply Z.ltb_ge; lia). rewrite E0.
    rewrite map_map. apply map_ext. intros i. f_equal.
    unfold Time.add, Time.minutes, Time.hours. f_equal. lia. }
  eexists. split; [apply get_forecast_entries; lia |].
  cbn [forecast]. rewrite map_map. cbn [ev_level_cm]. rewrite Ev. split.
  - rewrite firstn_map, firstn_range by lia. reflexivity.
  - intros H30. rewrite Z.min_l by lia. reflexivity.
Qed.

Lemma forecast_levels_on_chart_witness :
  exists fc,
    get_forecast (fun _ => 0%R) (fun _ => EmptyString) (Raise ValueError) 21 0 = Ok fc
    /\ map ev_level_cm (forecast fc)
       = chart_values (get_tide_chart (fun _ => 0%R) (fun _ _ => EmptyString) 21 0).
Proof.
  destruct (forecast_levels_on_chart (fun _ => 0%R) (fun _ _ => EmptyString)
              (fun _ => EmptyString) (Raise ValueError) 21 0) as [fc (H1 & _ & H3)];
    [lia |].
  exists fc. split; [exact H1 | apply H3; lia].
Defined.

(** X16: the validation always returns its report, and the prediction in
    the row of hour [i] is the level that the synthesis returns for
    2026-02-01 at [i] o'clock UTC, set against entry [i] of the table of
    observations. *)
Theorem validation_predictions_are_levels :
  forall (speed : string -> R),
    exists report,
      validate_model speed = Ok report
      /\ forall i : nat,
           (i < 24)%nat ->
           exists row,
             nth_error (comparison report) i = Some row
             /\ hour row = hour_label i
             /\ actual_cm row = nth i actual_data 0
             /\ calculate_tide_uptide speed
                  (Time.Aware (Time.mk 2026 2 1 (Z.of_nat i) 0 0 Time.utc))
                = Ok (predicted_cm row)
             /\ error_cm row = (predicted_cm row - IZR (actual_cm row))%R.
Proof.
  intros speed.
  destruct (validation_inputs_length speed) as [Hp Ha].
  destruct (validate_from_ok actual_data
              (levels_of speed CONS_NAMES CONS_H CONS_G A0 validation_hours_utc))
    as [report [Hr _]]; [congruence | rewrite Ha; apply le_n |].
  exists report. split; [exact Hr |].
  destruct (validate_from_inv _ _ _ Hr) as (_ & _ & _ & Hrows).
  intros i Hi. rewrite Hrows.
  eexists. split.
  { rewrite (map_nth_error _ i (seq 0 24) (d := i)); [reflexivity |].
    rewrite nth_error_nth' with (d := 0%nat) by (rewrite length_seq; exact Hi).
    rewrite seq_nth by exact Hi. reflexivity. }
  cbn [hour actual_cm predicted_cm error_cm].
  split; [reflexivity |]. split; [reflexivity |]. split; [| reflexivity].
  rewrite calculate_level_at. f_equal. rewrite levels_of_level_at.
  assert (Ht : nth_error validation_hours_utc i
               = Some (Time.mk 2026 2 1 (Z.of_nat i) 0 0 Time.utc)).
  { assert (Eh : validation_hours_utc
                 = map (fun i => Time.mk 2026 2 1 (Z.of_nat i) 0 0 Time.utc) (seq 0 24)).
    { unfold validation_hours_utc. apply map_ext. intros k.
      unfold Time.add, Time.astimezone, Time.instant, Time.mk, VN_TIMEZONE,
        Time.hours, Time.utc, Time.us_per_second. cbn [Time.wall Time.utcoffset].
      f_equal. lia. }
    rewrite Eh. rewrite (map_nth_error _ i (seq 0 24) (d := i)); [reflexivity |].
    rewrite nth_error_nth' with (d := 0%nat) by (rewrite length_seq; exact Hi).
    rewrite seq_nth by exact Hi. reflexivity. }
  symmetry. apply nth_error_nth. apply map_nth_error, Ht.
Qed.

Lemma validation_predictions_are_levels_witness :
  exists report row,
    validate_model (fun _ => 0%R) = Ok report
    /\ nth_error (comparison report) 23 = Some row
    /\ hour row = "23:00"%string.
Proof.
  destruct (validation_predictions_are_levels (fun _ => 0%R)) as [report [Hr H]].
  destruct (H 23%nat) as [row (H1 & H2 & _)]; [lia |].
  exists report, row. auto.
Defined.

Lemma daily_extremes_day_and_levels_witness :
  exists resp,
    get_daily_extremes (fun _ => 0%R) (fun _ _ => EmptyString) (Raise ValueError)
      (86400 * Time.us_per_second + 1) = Ok resp
    /\ date_local resp = 2.
Proof.
  destruct (daily_extremes_day_and_levels (fun _ => 0%R) (fun _ _ => EmptyString)
              (Raise ValueError) (86400 * Time.us_per_second + 1))
    as [resp (H1 & H2 & _)].
  exists resp. split; [exact H1 | exact H2].
Defined.
